(** * Attendance bot: the command handlers of [index.js] over the
      [attendance] table

    The bot answers three slash commands, [attend_add], [attend_updatefile]
    and [attend_list], each with one reply, and keeps its records in one
    SQLite table.  This development embeds the handler of
    [client.on("interactionCreate", ...)] as a function from the database
    and one interaction to the reply and the next database, and proves the
    record-lifecycle properties of the specification about it.

    What is modelled and how:
    - a JavaScript value that may be [null] is an [option]; [a || b] and
      [if (a)] follow JavaScript truthiness (the empty string and the number
      zero are falsy, like [null]);
    - integers ([id], [limit]) are [Z]; a rowid that comes back to
      JavaScript ([result.lastID]) is the nearest double, [JS.number];
    - text is a [string] of its UTF-8 bytes; [s.length] counts UTF-16 code
      units, [JS.length];
    - [createdAt] is the instant read from the clock, in milliseconds since
      the epoch (the value of [new Date()]); the source stores its
      [toISOString()] text, which denotes the same instant to the
      millisecond.  SQLite's [datetime(...)] renders an instant as
      [YYYY-MM-DD HH:MM:SS], that is, to the whole second, and is NULL
      where the text has no four-digit year;
    - the table is the list of its rows in rowid order, together with the
      counter that [AUTOINCREMENT] keeps in [sqlite_sequence];
    - an embed is kept as the data it displays; building it throws where
      a field value has no character or more than 1024;
    - the registered [commands] are kept as data, and a second embedding of
      the listener, [Raw.interactionCreate], takes any interaction, with
      the options as the getters of [interaction.options] answer them. *)

From Stdlib Require Import ZArith String Ascii List Lia.
From stdpp Require Import base decidable option list strings sorting.

Local Open Scope string_scope.
Local Open Scope Z_scope.

(** ** JavaScript truthiness *)

Module JS.

(** [if (s)] for a string or [null]. *)
Definition truthy (s : option string) : bool :=
  match s with
  | Some s => negb (String.eqb s "")
  | None => false
  end.

(** [a || b] for strings or [null]. *)
Definition or (a b : option string) : option string :=
  if truthy a then a else b.

(** [n || d] for an integer or [null] and a number [d]. *)
Definition or_int (n : option Z) (d : Z) : Z :=
  match n with
  | Some n => if n =? 0 then d else n
  | None => d
  end.

(** [c ? a : b] where [c] is a string or [null]. *)
Definition cond {A} (c : option string) (a b : A) : A :=
  if truthy c then a else b.

Definition upper_ascii (c : ascii) : ascii :=
  let n := nat_of_ascii c in
  if (97 <=? n)%nat && (n <=? 122)%nat then ascii_of_nat (n - 32) else c.

(** [s.toUpperCase()] of a text whose cased letters are ASCII letters, as
    the two values of the status are.  (JavaScript also maps the cased
    letters outside ASCII; no property below shows the upper case of such
    a text.) *)
Fixpoint toUpperCase (s : string) : string :=
  match s with
  | EmptyString => EmptyString
  | String c s => String (upper_ascii c) (toUpperCase s)
  end.

(** The UTF-16 code units a byte of UTF-8 text starts: one for an ASCII
    byte and for the leading byte of a two- or three-byte sequence, two for
    the leading byte of a four-byte sequence, none for a continuation
    byte. *)
Definition units (c : ascii) : nat :=
  let n := nat_of_ascii c in
  if (n <? 128)%nat then 1%nat
  else if (n <? 192)%nat then 0%nat
  else if (n <? 240)%nat then 1%nat
  else 2%nat.

(** [s.length] *)
Fixpoint length (s : string) : nat :=
  match s with
  | EmptyString => 0%nat
  | String c s => (units c + length s)%nat
  end.

(** The JavaScript number a 64-bit integer becomes: itself up to 2^53 in
    size, and beyond that the nearest double, ties to the even
    significand. *)
Definition number (z : Z) : Z :=
  let a := Z.abs z in
  if a <=? 2 ^ 53 then z
  else
    let e := Z.log2 a - 52 in
    let q := a / 2 ^ e in
    let r := a mod 2 ^ e in
    let half := 2 ^ (e - 1) in
    let q' := if r <? half then q
              else if half <? r then q + 1
              else if Z.even q then q else q + 1 in
    Z.sgn z * (q' * 2 ^ e).

End JS.

(** ** Embeds *)

Module EmbedBuilder.

(** [addFields] accepts a field value of 1 to 1024 characters and throws
    on any other.  (The field names, titles and footers of the program are
    fixed texts within their limits.) *)
Definition value_ok (value : string) : bool :=
  (1 <=? JS.length value)%nat && (JS.length value <=? 1024)%nat.

(** A field that is added only if there is a value to show. *)
Definition optional_ok (value : option string) : bool :=
  match value with
  | Some value => value_ok value
  | None => true
  end.

End EmbedBuilder.

(** ** Data *)

(** [interaction.user] *)
Module user.
Record t := mk { id : string; tag : string }.
End user.

(** An attachment option, as [getAttachment] returns it. *)
Module attachment.
Record t := mk { url : string; name : string }.
End attachment.

(** One row of [attendance], column by column. *)
Record row := {
  id : Z;
  userId : string;
  userName : string;
  subject : string;
  status : string;
  reason : option string;
  fileUrl : option string;
  fileName : option string;
  createdAt : Z
}.

(** The database file: the table in rowid order and the largest rowid
    [AUTOINCREMENT] has handed out. *)
Record database := {
  attendance : list row;
  sqlite_sequence : Z
}.

(** [CREATE TABLE IF NOT EXISTS attendance (...)] on a fresh file. *)
Definition new_database : database :=
  {| attendance := []; sqlite_sequence := 0 |}.

(** ** The SQL statements *)

Module Sql.

(** The largest value of a 64-bit rowid. *)
Definition MAX_ROWID : Z := 9223372036854775807.

Definition max_rowid (t : list row) : Z :=
  foldr (fun r m => Z.max (id r) m) 0 t.

(** The rowid of the next [INSERT] under [AUTOINCREMENT]: one more than
    the largest rowid the table has ever held; when that is the largest
    representable rowid the insert fails (SQLITE_FULL). *)
Definition new_rowid (db : database) : option Z :=
  let v := Z.max (sqlite_sequence db) (max_rowid (attendance db)) in
  if MAX_ROWID <=? v then None else Some (v + 1).

(** [INSERT INTO attendance (userId, ..., createdAt) VALUES (?, ..., ?)]:
    the new row and the database it leaves, or [None] when the statement
    is rejected. *)
Definition insert
    (db : database)
    (userId userName subject status : string)
    (reason fileUrl fileName : option string)
    (createdAt : Z) : option (Z * database) :=
  match new_rowid db with
  | None => None
  | Some lastID =>
      let r := {| id := lastID; userId := userId; userName := userName;
                  subject := subject; status := status; reason := reason;
                  fileUrl := fileUrl; fileName := fileName;
                  createdAt := createdAt |} in
      Some (lastID,
            {| attendance := attendance db ++ [r];
               sqlite_sequence := lastID |})
  end.

(** [SELECT * FROM attendance WHERE id = ? AND userId = ?] through
    [db.get]: the first matching row, if any. *)
Definition select_by_id_and_user
    (db : database) (i : Z) (uid : string) : option row :=
  head (filter (fun r => id r = i /\ userId r = uid) (attendance db)).

(** [SET fileUrl = ?, fileName = ?] on one row. *)
Definition set_file (url name : string) (r : row) : row :=
  {| id := id r; userId := userId r; userName := userName r;
     subject := subject r; status := status r; reason := reason r;
     fileUrl := Some url; fileName := Some name;
     createdAt := createdAt r |}.

(** What the [UPDATE] below does to one row. *)
Definition update_row (url name : string) (i : Z) (r : row) : row :=
  if decide (id r = i) then set_file url name r else r.

(** [UPDATE attendance SET fileUrl = ?, fileName = ? WHERE id = ?] *)
Definition update_file
    (db : database) (url name : string) (i : Z) : database :=
  {| attendance := update_row url name i <$> attendance db;
     sqlite_sequence := sqlite_sequence db |}.

(** The first and the last instant whose [toISOString()] text has a
    four-digit year: 0000-01-01T00:00:00.000Z and
    9999-12-31T23:59:59.999Z. *)
Definition MIN_TEXT : Z := -62167219200000.
Definition MAX_TEXT : Z := 253402300799999.

(** [datetime(createdAt)]: SQLite reads the ISO-8601 text and renders it
    as [YYYY-MM-DD HH:MM:SS], without the milliseconds.  On instants that
    is the number of whole seconds, and the rendered texts compare as
    these numbers do.  A text outside the four-digit years is not a time
    value to SQLite, and the result is NULL. *)
Definition datetime (ms : Z) : option Z :=
  if (MIN_TEXT <=? ms) && (ms <=? MAX_TEXT) then Some (ms / 1000) else None.

(** The order of the values of [datetime]: NULL is below every value. *)
Definition null_lt (a b : option Z) : bool :=
  match a, b with
  | Some x, Some y => x <? y
  | None, Some _ => true
  | _, None => false
  end.

(** [ORDER BY datetime(createdAt) DESC] as SQLite runs it under a
    [LIMIT]: each row the scan produces enters a sorted index on the
    key followed by its sequence number in the scan, so it is placed
    behind every row whose key is at least its own. *)
Fixpoint sorter_insert (r : row) (idx : list row) : list row :=
  match idx with
  | [] => [r]
  | x :: idx' =>
      if null_lt (datetime (createdAt x)) (datetime (createdAt r))
      then r :: idx
      else x :: sorter_insert r idx'
  end.

Definition order_by_datetime_desc (rs : list row) : list row :=
  fold_left (fun idx r => sorter_insert r idx) rs [].

(** [LIMIT ?]: a negative limit is no limit. *)
Definition limit_rows (n : Z) (rs : list row) : list row :=
  if n <? 0 then rs else take (Z.to_nat n) rs.

(** [SELECT * FROM attendance WHERE userId = ?
     ORDER BY datetime(createdAt) DESC LIMIT ?] *)
Definition select_recent_by_user
    (db : database) (uid : string) (limit : Z) : list row :=
  limit_rows limit
    (order_by_datetime_desc
       (filter (fun r => userId r = uid) (attendance db))).

End Sql.

(** ** The commands and their replies *)

Inductive command :=
| attend_add (class status : string) (reason : option string)
             (proof : option attachment.t)
| attend_updatefile (id : Z) (proof : attachment.t)
| attend_list (limit : option Z).

Record interaction := {
  user : user.t;
  options : command
}.

Inductive reply :=
| Content (content : string)
| AttendanceSaved (ID : Z) (Class Status : string)
                  (Reason File : option string)
| ProofUpdated (ID : Z) (Class Status File : string)
| YourLast (rows : list row).

Definition no_attendance_found : string :=
  "❌ No attendance found with that ID (for you).".
Definition no_records_yet : string :=
  "📭 No attendance records yet.".
Definition something_went_wrong : string :=
  "⚠️ Something went wrong while processing your command.".

(** ** The handlers *)

(** [reasonOpt || (status === "absent" ? "Not provided" : null)] *)
Definition stored_reason (status : string) (reasonOpt : option string)
  : option string :=
  JS.or reasonOpt
        (if String.eqb status "absent" then Some "Not provided" else None).

(** The [limit] of [attend_list] after the default and the two guards. *)
Definition effective_limit (opt : option Z) : Z :=
  let limit := JS.or_int opt 5 in
  let limit := if 20 <? limit then 20 else limit in
  let limit := if limit <? 1 then 1 else limit in
  limit.

(** The embed "Attendance Saved", or [None] where building it throws. *)
Definition saved_embed (id : Z) (subject status : string)
    (reason fileUrl fileName : option string) : option reply :=
  let STATUS := JS.toUpperCase status in
  let Reason := JS.cond reason reason None in
  let File := JS.cond fileUrl (JS.or fileName fileUrl) None in
  if EmbedBuilder.value_ok subject && EmbedBuilder.value_ok STATUS
     && EmbedBuilder.optional_ok Reason && EmbedBuilder.optional_ok File
  then Some (AttendanceSaved id subject STATUS Reason File)
  else None.

(** The embed "Proof Updated", or [None] where building it throws. *)
Definition updated_embed (id : Z) (rec : row) (proof : attachment.t)
  : option reply :=
  let STATUS := JS.toUpperCase (status rec) in
  if EmbedBuilder.value_ok (subject rec) && EmbedBuilder.value_ok STATUS
     && EmbedBuilder.value_ok (attachment.name proof)
  then Some (ProofUpdated id (subject rec) STATUS (attachment.name proof))
  else None.

(** The body of the [try] block: the reply it sends, or [None] where it
    throws (a rejected statement, an embed that cannot be built), and the
    database it leaves. *)
Definition handle (now : Z) (db : database) (i : interaction)
  : option reply * database :=
  match options i with
  | attend_add subject status reasonOpt proof =>
      let reason := stored_reason status reasonOpt in
      let createdAt := now in
      let fileUrl := attachment.url <$> proof in
      let fileName := attachment.name <$> proof in
      match Sql.insert db (user.id (user i)) (user.tag (user i))
                       subject status reason fileUrl fileName createdAt with
      | None => (None, db)
      | Some (lastID, db') =>
          let id := JS.number lastID in
          (saved_embed id subject status reason fileUrl fileName, db')
      end
  | attend_updatefile id proof =>
      match Sql.select_by_id_and_user db id (user.id (user i)) with
      | None => (Some (Content no_attendance_found), db)
      | Some rec =>
          let db' := Sql.update_file db (attachment.url proof)
                                     (attachment.name proof) id in
          (updated_embed id rec proof, db')
      end
  | attend_list limit =>
      let limit := effective_limit limit in
      let rows := Sql.select_recent_by_user db (user.id (user i)) limit in
      match rows with
      | [] => (Some (Content no_records_yet), db)
      | _ => (Some (YourLast rows), db)
      end
  end.

(** [client.on("interactionCreate", ...)]: one reply, which is that of the
    [catch] where the body throws, and the database the command leaves. *)
Definition interactionCreate (now : Z) (db : database) (i : interaction)
  : reply * database :=
  let out := handle now db i in
  (match fst out with
   | Some r => r
   | None => Content something_went_wrong
   end,
   snd out).

(** A history of commands, each with the clock reading of its arrival. *)
Fixpoint run (db : database) (evs : list (Z * interaction))
  : list reply * database :=
  match evs with
  | [] => ([], db)
  | (now, i) :: evs =>
      let '(r, db') := interactionCreate now db i in
      let '(rs, db'') := run db' evs in
      (r :: rs, db'')
  end.

(** The rows a reply lists. *)
Definition listed (r : reply) : list row :=
  match r with
  | YourLast rows => rows
  | _ => []
  end.

(** The ids the replies of a history announce as saved, in order. *)
Fixpoint saved_ids (rs : list reply) : list Z :=
  match rs with
  | [] => []
  | AttendanceSaved ID _ _ _ _ :: rs => ID :: saved_ids rs
  | _ :: rs => saved_ids rs
  end.

(** An [attend_add] as a user means it: a class of 1 to 1024 characters,
    one of the two values of the status, a reason, where one is given and
    not empty, of at most 1024 characters, and a file, where one is
    attached, with a name of 1 to 1024 characters. *)
Definition well_formed_add (subject status : string)
    (reasonOpt : option string) (proof : option attachment.t) : bool :=
  EmbedBuilder.value_ok subject
  && (String.eqb status "present" || String.eqb status "absent")
  && EmbedBuilder.optional_ok (JS.or reasonOpt None)
  && EmbedBuilder.optional_ok (attachment.name <$> proof).

(** The counter is at least every id of the table. *)
Definition counted (db : database) : Prop :=
  0 <= sqlite_sequence db
  /\ Forall (fun r => id r <= sqlite_sequence db) (attendance db).

(** The table is in rowid order, the order in which SQLite keeps and scans
    it; in particular no two rows share an [id] (PRIMARY KEY). *)
Definition rowid_order (db : database) : Prop :=
  StronglySorted (fun a b => id a < id b) (attendance db).

(** The order of [attend_list]: later second first, rows without a
    [datetime] last, and within one second, or without one, the row
    inserted first. *)
Definition recent_first (a b : row) : Prop :=
  Sql.null_lt (Sql.datetime (createdAt b)) (Sql.datetime (createdAt a)) = true
  \/ (Sql.datetime (createdAt a) = Sql.datetime (createdAt b)
      /\ id a < id b).

(** ** Start-up configuration *)

(** [CLIENT_ID], the application id fixed in the source. *)
Definition CLIENT_ID : string := "1442491276896501841".

(** The start-up guard [if (!TOKEN || !CLIENT_ID || !GUILD_ID) exit] on the
    two environment variables: [true] when the process exits. *)
Definition config_missing (TOKEN GUILD_ID : option string) : bool :=
  negb (JS.truthy TOKEN) || negb (JS.truthy (Some CLIENT_ID))
  || negb (JS.truthy GUILD_ID).

(** ** The registered slash commands *)

Module Choice.
Record t := mk { name : string; value : string }.
End Choice.

Module SlashOption.
Inductive kind := StringOption | AttachmentOption | IntegerOption.
Record t := mk {
  type : kind;
  name : string;
  description : string;
  required : bool;
  choices : list Choice.t
}.
End SlashOption.

Module SlashCommand.
Record t := mk {
  name : string;
  description : string;
  options : list SlashOption.t
}.
End SlashCommand.

(** The array [commands] handed to the registration call. *)
Definition commands : list SlashCommand.t :=
  [ SlashCommand.mk "attend_add" "Add your attendance for a class"
      [ SlashOption.mk SlashOption.StringOption "class"
          "Class or subject name" true [];
        SlashOption.mk SlashOption.StringOption "status"
          "present / absent" true
          [ Choice.mk "Present" "present"; Choice.mk "Absent" "absent" ];
        SlashOption.mk SlashOption.StringOption "reason"
          "Reason (especially if absent)" false [];
        SlashOption.mk SlashOption.AttachmentOption "proof"
          "Optional proof: photo/PDF/document" false [] ];
    SlashCommand.mk "attend_updatefile"
      "Update / add proof file for an old attendance record"
      [ SlashOption.mk SlashOption.IntegerOption "id"
          "Attendance ID shown in /attend_list" true [];
        SlashOption.mk SlashOption.AttachmentOption "proof"
          "New proof file" true [] ];
    SlashCommand.mk "attend_list" "Show your recent attendance records"
      [ SlashOption.mk SlashOption.IntegerOption "limit"
          "How many records to show (default 5, max 20)" false [] ] ].

(** ** The interaction as the listener receives it *)

(** Here the options are what the getters of [interaction.options] answer:
    a value, or [null] for an option the invocation does not carry.  The
    handler of the sections above is the listener on the invocations that
    carry their required options; this one takes any interaction. *)
Module Raw.

Record resolver := {
  getString : string -> option string;
  getInteger : string -> option Z;
  getAttachment : string -> option attachment.t
}.

Record interaction := {
  isChatInputCommand : bool;
  commandName : string;
  user : user.t;
  options : resolver
}.

(** The body of the [try] block: what it sends, [Some None] where it
    returns without a reply and [None] where it throws, and the database it
    leaves. *)
Definition handle (now : Z) (db : database) (i : interaction)
  : option (option reply) * database :=
  if String.eqb (commandName i) "attend_add" then
    let subject := getString (options i) "class" in
    let status := getString (options i) "status" in
    let reasonOpt := getString (options i) "reason" in
    let proof := getAttachment (options i) "proof" in
    let reason :=
      JS.or reasonOpt
        (match status with
         | Some s => if String.eqb s "absent" then Some "Not provided" else None
         | None => None
         end) in
    let createdAt := now in
    let fileUrl := attachment.url <$> proof in
    let fileName := attachment.name <$> proof in
    match subject, status with
    | Some subject, Some status =>
        match Sql.insert db (user.id (user i)) (user.tag (user i))
                         subject status reason fileUrl fileName createdAt with
        | None => (None, db)
        | Some (lastID, db') =>
            let id := JS.number lastID in
            (Some <$> saved_embed id subject status reason fileUrl fileName,
             db')
        end
    | _, _ =>
        (* a null in [subject TEXT NOT NULL] or [status TEXT NOT NULL] *)
        (None, db)
    end
  else if String.eqb (commandName i) "attend_updatefile" then
    let id := getInteger (options i) "id" in
    let proof := getAttachment (options i) "proof" in
    let rec :=
      match id with
      | Some id => Sql.select_by_id_and_user db id (user.id (user i))
      | None => None (* [id = NULL] holds of no row *)
      end in
    match rec, id with
    | Some rec, Some id =>
        match proof with
        | None => (None, db) (* [proof.url] of [null] throws *)
        | Some proof =>
            let db' := Sql.update_file db (attachment.url proof)
                                       (attachment.name proof) id in
            (Some <$> updated_embed id rec proof, db')
        end
    | _, _ => (Some (Some (Content no_attendance_found)), db)
    end
  else if String.eqb (commandName i) "attend_list" then
    let limit := effective_limit (getInteger (options i) "limit") in
    let rows := Sql.select_recent_by_user db (user.id (user i)) limit in
    match rows with
    | [] => (Some (Some (Content no_records_yet)), db)
    | _ => (Some (Some (YourLast rows)), db)
    end
  else (Some None, db).

(** [client.on("interactionCreate", ...)] on any interaction: the reply, if
    any, and the database it leaves. *)
Definition interactionCreate (now : Z) (db : database) (i : interaction)
  : option reply * database :=
  if negb (isChatInputCommand i) then (None, db)
  else
    let out := handle now db i in
    (match fst out with
     | Some sent => sent
     | None => Some (Content something_went_wrong)
     end,
     snd out).

Fixpoint run (db : database) (evs : list (Z * interaction))
  : list (option reply) * database :=
  match evs with
  | [] => ([], db)
  | (now, i) :: evs =>
      let '(r, db') := interactionCreate now db i in
      let '(rs, db'') := run db' evs in
      (r :: rs, db'')
  end.

(** What the platform checks of one declared option before it delivers an
    invocation: a required option is there, and a string option with
    choices takes the value of one of them. *)
Definition option_ok (o : resolver) (s : SlashOption.t) : bool :=
  match SlashOption.type s with
  | SlashOption.StringOption =>
      match getString o (SlashOption.name s) with
      | None => negb (SlashOption.required s)
      | Some v =>
          match SlashOption.choices s with
          | [] => true
          | cs => existsb (fun c => String.eqb (Choice.value c) v) cs
          end
      end
  | SlashOption.IntegerOption =>
      match getInteger o (SlashOption.name s) with
      | None => negb (SlashOption.required s)
      | Some _ => true
      end
  | SlashOption.AttachmentOption =>
      match getAttachment o (SlashOption.name s) with
      | None => negb (SlashOption.required s)
      | Some _ => true
      end
  end.

(** An invocation of one of the registered commands that passes the
    platform's checks against its declaration. *)
Definition conforms (i : interaction) : bool :=
  isChatInputCommand i
  && existsb (fun c => String.eqb (SlashCommand.name c) (commandName i)
                       && forallb (option_ok (options i))
                                  (SlashCommand.options c))
             commands.

End Raw.

(** The command an interaction amounts to when it carries the options its
    handler needs. *)
Definition typed (i : Raw.interaction) : option interaction :=
  let o := Raw.options i in
  if negb (Raw.isChatInputCommand i) then None
  else if String.eqb (Raw.commandName i) "attend_add" then
    match Raw.getString o "class", Raw.getString o "status" with
    | Some subject, Some status =>
        Some {| user := Raw.user i;
                options := attend_add subject status
                             (Raw.getString o "reason")
                             (Raw.getAttachment o "proof") |}
    | _, _ => None
    end
  else if String.eqb (Raw.commandName i) "attend_updatefile" then
    match Raw.getInteger o "id", Raw.getAttachment o "proof" with
    | Some id, Some proof =>
        Some {| user := Raw.user i; options := attend_updatefile id proof |}
    | _, _ => None
    end
  else if String.eqb (Raw.commandName i) "attend_list" then
    Some {| user := Raw.user i;
            options := attend_list (Raw.getInteger o "limit") |}
  else None.

(** The columns no statement of the program writes after the insert. *)
Definition fixed_columns (r : row)
  : Z * string * string * string * string * option string * Z :=
  (id r, userId r, userName r, subject r, status r, reason r, createdAt r).

(** ** Two small databases *)

(** Two records of one user, added four seconds apart. *)
Definition two_records : database :=
  snd (run new_database
         [(1000, {| user := user.mk "1" "a#1";
                    options := attend_add "Math" "present" None None |});
          (5000, {| user := user.mk "1" "a#1";
                    options := attend_add "Art" "present" None None |})]).

(** Two records of one user, added within one second. *)
Definition same_second : database :=
  snd (run new_database
         [(1700000000100, {| user := user.mk "1" "a#1";
                             options := attend_add "Math" "present" None None |});
          (1700000000900, {| user := user.mk "1" "a#1";
                             options := attend_add "Art" "present" None None |})]).

(** A record of one user followed by a record of another. *)
Definition two_owners : database :=
  snd (run new_database
         [(1000, {| user := user.mk "1" "a#1";
                    options := attend_add "Math" "absent" None None |});
          (5000, {| user := user.mk "2" "b#2";
                    options := attend_add "Art" "present" None
                                 (Some (attachment.mk "u" "f.pdf")) |})]).

(** ** Some interactions *)

(** The value an invocation carries for an option name, if any. *)
Definition carried {A} (l : list (string * A)) (n : string) : option A :=
  snd <$> List.find (fun p => String.eqb (fst p) n) l.

(** A chat-input invocation of a command with the options it carries. *)
Definition invocation (name : string) (u : user.t)
    (strings : list (string * string)) (integers : list (string * Z))
    (attachments : list (string * attachment.t)) : Raw.interaction :=
  {| Raw.isChatInputCommand := true;
     Raw.commandName := name;
     Raw.user := u;
     Raw.options := {| Raw.getString := carried strings;
                       Raw.getInteger := carried integers;
                       Raw.getAttachment := carried attachments |} |}.

(** * Properties *)

(** ** The limit of [attend_list] *)

Lemma effective_limit_omitted : effective_limit None = 5.
Proof. reflexivity. Qed.

Lemma effective_limit_range opt : 1 <= effective_limit opt <= 20.
Proof.
  unfold effective_limit.
  destruct (20 <? JS.or_int opt 5) eqn:Hhi; simpl; [lia|].
  destruct (JS.or_int opt 5 <? 1) eqn:Hlo; lia.
Qed.

Lemma effective_limit_nonzero n :
  n <> 0 -> effective_limit (Some n) = Z.max 1 (Z.min 20 n).
Proof.
  intros Hn. unfold effective_limit, JS.or_int.
  destruct (Z.eqb_spec n 0) as [|_]; [done|].
  destruct (20 <? n) eqn:Hhi; simpl.
  - lia.
  - destruct (n <? 1) eqn:Hlo; lia.
Qed.

(** ** [attend_add] *)

Ltac unfold_add :=
  unfold interactionCreate, handle, Sql.insert; simpl.

Lemma attend_add_stores now db u subject status reasonOpt proof lastID :
  Sql.new_rowid db = Some lastID ->
  interactionCreate now db
    {| user := u; options := attend_add subject status reasonOpt proof |}
  = let reason := stored_reason status reasonOpt in
    let fileUrl := attachment.url <$> proof in
    let fileName := attachment.name <$> proof in
    (match saved_embed (JS.number lastID) subject status
                        reason fileUrl fileName with
     | Some r => r
     | None => Content something_went_wrong
     end,
     {| attendance :=
          attendance db ++
          [{| id := lastID; userId := user.id u; userName := user.tag u;
              subject := subject; status := status; reason := reason;
              fileUrl := fileUrl; fileName := fileName;
              createdAt := now |}];
        sqlite_sequence := lastID |}).
Proof. intros Hid. unfold_add. by rewrite Hid. Qed.

Lemma attend_add_rejected now db u subject status reasonOpt proof :
  Sql.new_rowid db = None ->
  interactionCreate now db
    {| user := u; options := attend_add subject status reasonOpt proof |}
  = (Content something_went_wrong, db).
Proof. intros Hid. unfold_add. by rewrite Hid. Qed.

(** The insert goes through as long as the rowids are not used up. *)
Lemma new_rowid_available db :
  Z.max (sqlite_sequence db) (Sql.max_rowid (attendance db)) < Sql.MAX_ROWID ->
  Sql.new_rowid db
  = Some (Z.max (sqlite_sequence db) (Sql.max_rowid (attendance db)) + 1).
Proof.
  intros Hlt. unfold Sql.new_rowid.
  destruct (Z.leb_spec Sql.MAX_ROWID
              (Z.max (sqlite_sequence db) (Sql.max_rowid (attendance db))));
    [lia|done].
Qed.

Lemma new_rowid_above db lastID :
  Sql.new_rowid db = Some lastID ->
  sqlite_sequence db < lastID /\ Sql.max_rowid (attendance db) < lastID.
Proof.
  unfold Sql.new_rowid.
  destruct (Sql.MAX_ROWID <=? _); [done|].
  intros [= <-]. lia.
Qed.

Lemma max_rowid_bound t : Forall (fun r => id r <= Sql.max_rowid t) t.
Proof.
  induction t as [|r t IH]; simpl; constructor.
  - lia.
  - eapply Forall_impl; [exact IH|]. simpl. intros; lia.
Qed.

(** C1, at the input where the code departs from it: an explicit limit of
    zero is taken for an omitted one, so the effective limit is 5 and not 1,
    and a caller with two records is shown both of them. *)
Theorem attend_list_limit_zero :
  effective_limit (Some 0) = 5
  /\ length (listed (fst (interactionCreate 9000 two_records
                            {| user := user.mk "1" "a#1";
                               options := attend_list (Some 0) |}))) = 2%nat.
Proof. split; vm_compute; reflexivity. Qed.

(** C2: with the reason omitted, an absent record is stored with the reason
    "Not provided" and a present record with no reason. *)
Theorem attend_add_omitted_reason now db u subject proof lastID :
  Sql.new_rowid db = Some lastID ->
  (exists r,
     attendance (snd (interactionCreate now db
       {| user := u; options := attend_add subject "absent" None proof |}))
     = (attendance db ++ [r])%list
     /\ id r = lastID /\ reason r = Some "Not provided")
  /\ (exists r,
     attendance (snd (interactionCreate now db
       {| user := u; options := attend_add subject "present" None proof |}))
     = (attendance db ++ [r])%list
     /\ id r = lastID /\ reason r = None).
Proof.
  intros Hid. split; rewrite (attend_add_stores _ _ _ _ _ _ _ _ Hid); simpl;
    eexists; (split; [reflexivity|]); by split.
Qed.

Lemma attend_add_omitted_reason_witness :
  (exists r,
     attendance (snd (interactionCreate 1000 new_database
       {| user := user.mk "1" "a#1";
          options := attend_add "Math" "absent" None None |}))
     = (attendance new_database ++ [r])%list
     /\ id r = 1 /\ reason r = Some "Not provided")
  /\ (exists r,
     attendance (snd (interactionCreate 1000 new_database
       {| user := user.mk "1" "a#1";
          options := attend_add "Math" "present" None None |}))
     = (attendance new_database ++ [r])%list
     /\ id r = 1 /\ reason r = None).
Proof. apply attend_add_omitted_reason. reflexivity. Defined.

(** C3 fails as stated: an empty reason given with an absent record is not
    stored as it is; the placeholder is stored. *)
Lemma empty_reason_not_stored :
  let db := snd (interactionCreate 1000 new_database
                   {| user := user.mk "1" "a#1";
                      options := attend_add "Math" "absent" (Some "") None |}) in
  reason <$> attendance db = [Some "Not provided"]
  /\ reason <$> attendance db <> [Some ""].
Proof. split; vm_compute; [reflexivity|discriminate]. Qed.

(** A reason that is given and not empty is stored as it is. *)
Lemma stored_reason_given status s :
  s <> "" -> stored_reason status (Some s) = Some s.
Proof.
  intros Hs. unfold stored_reason, JS.or, JS.truthy.
  destruct (String.eqb_spec s ""); [done|reflexivity].
Qed.

(** C3, amended: a reason that is given is stored as it is unless it is
    empty; an empty reason is handled exactly as an omitted one, in the
    reply and in what is stored, so that the stored reason is then
    "Not provided" for an absent record and none otherwise. *)
Theorem attend_add_empty_reason now db u subject status proof lastID s :
  Sql.new_rowid db = Some lastID ->
  interactionCreate now db
    {| user := u; options := attend_add subject status (Some "") proof |}
  = interactionCreate now db
    {| user := u; options := attend_add subject status None proof |}
  /\ exists r,
       attendance (snd (interactionCreate now db
         {| user := u; options := attend_add subject status (Some s) proof |}))
       = (attendance db ++ [r])%list
       /\ id r = lastID
       /\ reason r = if String.eqb s ""
                     then if String.eqb status "absent"
                          then Some "Not provided" else None
                     else Some s.
Proof.
  intros Hid. split; [reflexivity|].
  rewrite (attend_add_stores _ _ _ _ _ _ _ _ Hid). simpl.
  eexists. split; [reflexivity|]. split; [done|]. simpl.
  destruct (String.eqb_spec s "") as [->|Hs]; [reflexivity|].
  by apply stored_reason_given.
Qed.

Lemma attend_add_empty_reason_witness :
  interactionCreate 1000 new_database
    {| user := user.mk "1" "a#1";
       options := attend_add "Math" "absent" (Some "") None |}
  = interactionCreate 1000 new_database
    {| user := user.mk "1" "a#1";
       options := attend_add "Math" "absent" None None |}
  /\ exists r,
       attendance (snd (interactionCreate 1000 new_database
         {| user := user.mk "1" "a#1";
            options := attend_add "Math" "absent" (Some "Fever") None |}))
       = (attendance new_database ++ [r])%list
       /\ id r = 1
       /\ reason r = if String.eqb "Fever" ""
                     then if String.eqb "absent" "absent"
                          then Some "Not provided" else None
                     else Some "Fever".
Proof.
  apply (attend_add_empty_reason 1000 new_database (user.mk "1" "a#1")
           "Math" "absent" None 1 "Fever").
  reflexivity.
Defined.

(** C10: [attend_add] leaves every row of the table in place and as it was;
    it appends at most one row. *)
Theorem attend_add_keeps_rows now db u subject status reasonOpt proof :
  exists new,
    attendance (snd (interactionCreate now db
      {| user := u; options := attend_add subject status reasonOpt proof |}))
    = (attendance db ++ new)%list
    /\ (length new <= 1)%nat.
Proof.
  destruct (Sql.new_rowid db) as [lastID|] eqn:Hid.
  - rewrite (attend_add_stores _ _ _ _ _ _ _ _ Hid). simpl.
    eexists. split; [reflexivity|]. simpl. lia.
  - rewrite (attend_add_rejected _ _ _ _ _ _ _ Hid). simpl.
    exists []. split; [by rewrite app_nil_r|]. simpl. lia.
Qed.

(** ** The ids [attend_add] hands out *)

Lemma run_cons db now i evs :
  run db ((now, i) :: evs)
  = (fst (interactionCreate now db i)
       :: fst (run (snd (interactionCreate now db i)) evs),
     snd (run (snd (interactionCreate now db i)) evs)).
Proof.
  cbn -[interactionCreate].
  destruct (interactionCreate now db i) as [r db']. cbn -[interactionCreate].
  by destruct (run db' evs).
Qed.

Lemma saved_ids_cons r rs : saved_ids (r :: rs) = (saved_ids [r] ++ saved_ids rs)%list.
Proof. by destruct r. Qed.

Lemma number_exact z : Z.abs z <= 2 ^ 53 -> JS.number z = z.
Proof.
  intros Hz. unfold JS.number.
  destruct (Z.leb_spec (Z.abs z) (2 ^ 53)); [done|lia].
Qed.

Lemma max_rowid_le (l : list row) n :
  0 <= n -> Forall (fun r => id r <= n) l -> Sql.max_rowid l <= n.
Proof. intros Hn. induction 1; simpl; lia. Qed.

(** The embed of a well-formed [attend_add] can be built, and shows the
    id. *)
Lemma saved_embed_well_formed ID subject status reasonOpt proof :
  well_formed_add subject status reasonOpt proof = true ->
  exists Reason File,
    saved_embed ID subject status (stored_reason status reasonOpt)
                (attachment.url <$> proof) (attachment.name <$> proof)
    = Some (AttendanceSaved ID subject (JS.toUpperCase status) Reason File).
Proof.
  unfold well_formed_add, saved_embed. rewrite !andb_true_iff.
  intros [[[Hsubject Hstatus] Hreason] Hname]. rewrite Hsubject.
  assert (Hupper : EmbedBuilder.value_ok (JS.toUpperCase status) = true).
  { apply orb_true_iff in Hstatus as [Hs|Hs];
      apply String.eqb_eq in Hs; by subst status. }
  rewrite Hupper.
  assert (HReason : EmbedBuilder.optional_ok
            (JS.cond (stored_reason status reasonOpt)
                     (stored_reason status reasonOpt) None) = true).
  { unfold JS.cond, stored_reason, JS.or, JS.truthy in *.
    destruct reasonOpt as [s|]; simpl in *.
    - destruct (String.eqb_spec s "") as [->|Hs]; simpl in *.
      + by destruct (String.eqb status "absent").
      + destruct (String.eqb_spec s ""); done.
    - by destruct (String.eqb status "absent"). }
  rewrite HReason.
  assert (HFile : EmbedBuilder.optional_ok
            (JS.cond (attachment.url <$> proof)
                     (JS.or (attachment.name <$> proof)
                            (attachment.url <$> proof)) None) = true).
  { unfold JS.cond, JS.or, JS.truthy. destruct proof as [[url name]|];
      simpl in *; [|done].
    destruct (String.eqb url ""); simpl; [done|].
    destruct (String.eqb_spec name "") as [->|_]; simpl; done. }
  rewrite HFile. simpl. eauto.
Qed.

(** One command leaves the counter or moves it up by one, and an id it
    announces is the counter it leaves. *)
Lemma interactionCreate_sequence now db i :
  counted db -> sqlite_sequence db < 2 ^ 53 ->
  let out := interactionCreate now db i in
  counted (snd out)
  /\ sqlite_sequence db <= sqlite_sequence (snd out) <= sqlite_sequence db + 1
  /\ (saved_ids [fst out] = []
      \/ (saved_ids [fst out] = [sqlite_sequence (snd out)]
          /\ sqlite_sequence (snd out) = sqlite_sequence db + 1)).
Proof.
  intros [Hseq Hrows] Hbound.
  destruct i as [u [subject status reasonOpt proof | i proof | limit]];
    cbv zeta.
  - assert (Hmax : Sql.max_rowid (attendance db) <= sqlite_sequence db)
      by by apply max_rowid_le.
    assert (Hid : Sql.new_rowid db = Some (sqlite_sequence db + 1)).
    { rewrite new_rowid_available; [f_equal; lia|].
      unfold Sql.MAX_ROWID. lia. }
    rewrite (attend_add_stores _ _ _ _ _ _ _ _ Hid).
    unfold counted. cbn [fst snd attendance sqlite_sequence].
    split; [split; [lia|]|split; [lia|]].
    + apply Forall_app. split.
      * eapply Forall_impl; [exact Hrows|]. simpl. intros; lia.
      * repeat constructor. simpl. lia.
    + rewrite number_exact by lia. unfold saved_embed.
      destruct (_ && _); [right|left]; done.
  - unfold interactionCreate, handle. simpl.
    destruct (Sql.select_by_id_and_user db i (user.id u)) as [rec|];
      unfold counted;
      cbn [fst snd attendance sqlite_sequence Sql.update_file].
    + split; [split; [done|]|split; [lia|]].
      * apply Forall_fmap. eapply Forall_impl; [exact Hrows|].
        intros r Hr. simpl. unfold Sql.update_row.
        by destruct (decide (id r = i)).
      * left. unfold updated_embed. by destruct (_ && _).
    + split; [done|split; [lia|by left]].
  - unfold interactionCreate, handle. simpl.
    destruct (Sql.select_recent_by_user db (user.id u) _);
      unfold counted; simpl; (split; [done|split; [lia|by left]]).
Qed.

Lemma run_saved_ids evs : forall db,
  counted db ->
  sqlite_sequence db + Z.of_nat (length evs) <= 2 ^ 53 ->
  let out := run db evs in
  counted (snd out)
  /\ sqlite_sequence db <= sqlite_sequence (snd out)
     <= sqlite_sequence db + Z.of_nat (length evs)
  /\ Forall (fun ID => sqlite_sequence db < ID <= sqlite_sequence (snd out))
            (saved_ids (fst out))
  /\ StronglySorted Z.lt (saved_ids (fst out)).
Proof.
  induction evs as [|[now i] evs IH]; intros db Hdb Hbound.
  - simpl. split; [done|]. split; [lia|]. split; constructor.
  - rewrite run_cons. cbn [fst snd]. rewrite saved_ids_cons.
    cbn [length] in Hbound.
    destruct (interactionCreate_sequence now db i Hdb) as (Hdb' & Hstep & Hid);
      [lia|].
    destruct (IH (snd (interactionCreate now db i)) Hdb')
      as (Hout & Hseq & Hall & Hsorted); [lia|].
    split; [done|]. split; [cbn [length]; lia|]. split.
    + apply Forall_app. split.
      * destruct Hid as [->|[-> ?]]; [constructor|].
        constructor; [lia|constructor].
      * eapply Forall_impl; [exact Hall|]. cbv beta. intros; lia.
    + destruct Hid as [->|[-> ?]]; [done|]. cbn [app].
      constructor; [done|].
      eapply Forall_impl; [exact Hall|]. cbv beta. intros; lia.
Qed.

(** C9: after any history of fewer than 2^53 commands on a fresh database,
    a well-formed [attend_add] is given an id, and this id is greater than
    every id announced before and every id in the table; the ids announced
    over the history are strictly increasing. *)
Theorem attend_add_ids_increase evs now u subject status reasonOpt proof :
  Z.of_nat (length evs) < 2 ^ 53 ->
  well_formed_add subject status reasonOpt proof = true ->
  let history := run new_database evs in
  exists ID,
    saved_ids [fst (interactionCreate now (snd history)
                      {| user := u;
                         options := attend_add subject status reasonOpt proof |})]
    = [ID]
    /\ Forall (fun j => j < ID) (saved_ids (fst history))
    /\ Forall (fun r => id r < ID) (attendance (snd history))
    /\ StronglySorted Z.lt (saved_ids (fst history)).
Proof.
  intros Hbound Hok history.
  destruct (run_saved_ids evs new_database)
    as ([Hseq Hrows] & Hcount & Hall & Hsorted);
    [split; [done|constructor] | simpl; lia |].
  fold history in Hseq, Hrows, Hcount, Hall, Hsorted. simpl in Hcount.
  exists (sqlite_sequence (snd history) + 1).
  assert (Hid : Sql.new_rowid (snd history)
                = Some (sqlite_sequence (snd history) + 1)).
  { rewrite new_rowid_available.
    - f_equal. pose proof (max_rowid_le _ _ Hseq Hrows). lia.
    - pose proof (max_rowid_le _ _ Hseq Hrows). unfold Sql.MAX_ROWID. lia. }
  rewrite (attend_add_stores _ _ _ _ _ _ _ _ Hid). cbn [fst].
  rewrite number_exact by lia.
  destruct (saved_embed_well_formed (sqlite_sequence (snd history) + 1)
              subject status reasonOpt proof Hok) as (Reason & File & ->).
  split_and!; [done| | |done].
  - eapply Forall_impl; [exact Hall|]. simpl. intros; lia.
  - eapply Forall_impl; [exact Hrows|]. simpl. intros; lia.
Qed.

Lemma attend_add_ids_increase_witness :
  let history :=
    run new_database
      [(1000, {| user := user.mk "1" "a#1";
                 options := attend_add "Math" "present" None None |});
       (5000, {| user := user.mk "2" "b#2";
                 options := attend_add "Art" "absent" None None |})] in
  exists ID,
    saved_ids [fst (interactionCreate 9000 (snd history)
                      {| user := user.mk "1" "a#1";
                         options := attend_add "Bio" "absent"
                                      (Some "Fever") None |})]
    = [ID]
    /\ Forall (fun j => j < ID) (saved_ids (fst history))
    /\ Forall (fun r => id r < ID) (attendance (snd history))
    /\ StronglySorted Z.lt (saved_ids (fst history)).
Proof.
  apply (attend_add_ids_increase
           [(1000, {| user := user.mk "1" "a#1";
                      options := attend_add "Math" "present" None None |});
            (5000, {| user := user.mk "2" "b#2";
                      options := attend_add "Art" "absent" None None |})]
           9000 (user.mk "1" "a#1") "Bio" "absent" (Some "Fever") None);
    [simpl; lia | reflexivity].
Defined.

(** ** [attend_updatefile] *)

Section update.

Context (url name : string) (i : Z).

Lemma update_other (l : list row) :
  Forall (fun r => id r <> i) l -> Sql.update_row url name i <$> l = l.
Proof.
  induction 1 as [|r l Hr _ IH]; [done|].
  rewrite fmap_cons, IH. unfold Sql.update_row. by rewrite decide_False.
Qed.

(** Under the primary key, the statement rewrites the one row that
    carries the id. *)
Lemma update_at (l : list row) : forall k rec,
  StronglySorted (fun a b => id a < id b) l ->
  l !! k = Some rec -> id rec = i ->
  Sql.update_row url name i <$> l = <[k := Sql.set_file url name rec]> l.
Proof.
  induction l as [|x l IH]; intros k rec Hsorted Hk Hid; [done|].
  apply StronglySorted_cons in Hsorted as [Hx Hl].
  rewrite fmap_cons. destruct k as [|k]; simpl in Hk; simpl.
  - injection Hk as ->. rewrite update_other.
    + unfold Sql.update_row. by rewrite decide_True.
    + eapply Forall_impl; [exact Hx|]. simpl. intros; lia.
  - rewrite (IH k rec Hl Hk Hid). unfold Sql.update_row.
    rewrite decide_False; [done|].
    rewrite Forall_forall in Hx.
    assert (id x < id rec) by (apply Hx; eapply list_elem_of_lookup_2; eauto).
    lia.
Qed.

End update.

(** The ownership lookup finds the caller's row with the id. *)
Lemma select_found db k rec :
  rowid_order db ->
  attendance db !! k = Some rec ->
  Sql.select_by_id_and_user db (id rec) (userId rec) = Some rec.
Proof.
  unfold rowid_order, Sql.select_by_id_and_user.
  generalize (attendance db). intros l. revert k.
  induction l as [|x l IH]; intros k Hsorted Hk; [done|].
  apply StronglySorted_cons in Hsorted as [Hx Hl].
  destruct k as [|k]; simpl in Hk.
  - injection Hk as ->. by rewrite filter_cons_True.
  - rewrite filter_cons_False; [by eapply IH|].
    rewrite Forall_forall in Hx.
    assert (id x < id rec) by (apply Hx; eapply list_elem_of_lookup_2; eauto).
    lia.
Qed.

(** The ownership lookup finds nothing when no row has both the id and the
    caller as its owner. *)
Lemma select_not_found db i uid :
  Forall (fun r => id r = i -> userId r <> uid) (attendance db) ->
  Sql.select_by_id_and_user db i uid = None.
Proof.
  unfold Sql.select_by_id_and_user. intros Hall.
  apply head_None. induction Hall as [|r l Hr _ IH]; [done|].
  rewrite filter_cons_False; [done|]. intros [Hi Hu]. by apply Hr.
Qed.

Lemma attend_updatefile_found now db u i proof k rec :
  rowid_order db ->
  attendance db !! k = Some rec -> id rec = i -> userId rec = user.id u ->
  interactionCreate now db
    {| user := u; options := attend_updatefile i proof |}
  = (match updated_embed i rec proof with
     | Some r => r
     | None => Content something_went_wrong
     end,
     {| attendance :=
          <[k := Sql.set_file (attachment.url proof) (attachment.name proof) rec]>
            (attendance db);
        sqlite_sequence := sqlite_sequence db |}).
Proof.
  intros Hsorted Hk Hid Hu. unfold interactionCreate, handle.
  cbn [options user].
  rewrite <- Hid, <- Hu, (select_found db k rec Hsorted Hk).
  cbn [fst snd]. unfold Sql.update_file.
  by rewrite (update_at _ _ _ _ k rec Hsorted Hk).
Qed.

(** C4: when no row has both the id and the caller as owner, whether no row
    has the id or the rows that have it are someone else's, the reply is the
    one "not found" message and the database is the one before. *)
Theorem attend_updatefile_not_found now db u i proof :
  Forall (fun r => id r = i -> userId r <> user.id u) (attendance db) ->
  interactionCreate now db
    {| user := u; options := attend_updatefile i proof |}
  = (Content "❌ No attendance found with that ID (for you).", db).
Proof.
  intros Hnone. unfold interactionCreate, handle. simpl.
  by rewrite (select_not_found _ _ _ Hnone).
Qed.

Lemma attend_updatefile_not_found_witness :
  interactionCreate 9000 two_records
    {| user := user.mk "2" "b#2";
       options := attend_updatefile 1 (attachment.mk "u" "f.pdf") |}
  = (Content "❌ No attendance found with that ID (for you).", two_records)
  /\ interactionCreate 9000 two_records
    {| user := user.mk "1" "a#1";
       options := attend_updatefile 7 (attachment.mk "u" "f.pdf") |}
  = (Content "❌ No attendance found with that ID (for you).", two_records).
Proof.
  split; apply attend_updatefile_not_found;
    repeat constructor; simpl; intros; discriminate.
Defined.

(** C5: when the caller owns the row with the id, the update replaces that
    row, where it stands, by a row that differs from it in [fileUrl] and
    [fileName] only; the other rows and the counter are as before. *)
Theorem attend_updatefile_frame now db u i proof k rec :
  rowid_order db ->
  attendance db !! k = Some rec -> id rec = i -> userId rec = user.id u ->
  exists rec',
    snd (interactionCreate now db
           {| user := u; options := attend_updatefile i proof |})
    = {| attendance := <[k := rec']> (attendance db);
         sqlite_sequence := sqlite_sequence db |}
    /\ id rec' = id rec /\ userId rec' = userId rec
    /\ userName rec' = userName rec /\ subject rec' = subject rec
    /\ status rec' = status rec /\ reason rec' = reason rec
    /\ createdAt rec' = createdAt rec
    /\ fileUrl rec' = Some (attachment.url proof)
    /\ fileName rec' = Some (attachment.name proof).
Proof.
  intros Hsorted Hk Hid Hu.
  rewrite (attend_updatefile_found _ _ _ _ _ k rec Hsorted Hk Hid Hu).
  eexists. split; [reflexivity|]. by repeat split.
Qed.

Lemma two_records_rowid_order : rowid_order two_records.
Proof. unfold rowid_order. vm_compute attendance. repeat constructor. Defined.

Lemma attend_updatefile_frame_witness :
  exists rec',
    snd (interactionCreate 9000 two_records
           {| user := user.mk "1" "a#1";
              options := attend_updatefile 2 (attachment.mk "u" "f.pdf") |})
    = {| attendance := <[1%nat := rec']> (attendance two_records);
         sqlite_sequence := sqlite_sequence two_records |}
    /\ id rec' = 2 /\ userId rec' = "1"
    /\ userName rec' = "a#1" /\ subject rec' = "Art"
    /\ status rec' = "present" /\ reason rec' = None
    /\ createdAt rec' = 5000
    /\ fileUrl rec' = Some "u"
    /\ fileName rec' = Some "f.pdf".
Proof.
  apply (attend_updatefile_frame 9000 two_records (user.mk "1" "a#1") 2
           (attachment.mk "u" "f.pdf") 1
           {| id := 2; userId := "1"; userName := "a#1"; subject := "Art";
              status := "present"; reason := None; fileUrl := None;
              fileName := None; createdAt := 5000 |});
    [exact two_records_rowid_order | reflexivity | reflexivity | reflexivity].
Defined.

(** The table stays in rowid order under every command. *)
Lemma rowid_order_new : rowid_order new_database.
Proof. constructor. Qed.

Lemma rowid_sorted_ids (l : list row) :
  StronglySorted (fun a b => id a < id b) l
  <-> StronglySorted Z.lt (id <$> l).
Proof.
  induction l as [|x l IH].
  - split; constructor.
  - rewrite fmap_cons, !StronglySorted_cons, IH, Forall_fmap. done.
Qed.

Lemma rowid_order_insert (l : list row) k rec rec' :
  StronglySorted (fun a b => id a < id b) l ->
  l !! k = Some rec -> id rec' = id rec ->
  StronglySorted (fun a b => id a < id b) (<[k := rec']> l).
Proof.
  intros Hsorted Hk Hid. apply rowid_sorted_ids.
  apply rowid_sorted_ids in Hsorted.
  rewrite list_fmap_insert, Hid, list_insert_id; [done|].
  by rewrite list_lookup_fmap, Hk.
Qed.

Lemma rowid_order_step now db i :
  rowid_order db -> rowid_order (snd (interactionCreate now db i)).
Proof.
  intros Hsorted.
  destruct i as [u [subject status reasonOpt proof | i proof | limit]].
  - destruct (Sql.new_rowid db) as [lastID|] eqn:Hid.
    + rewrite (attend_add_stores _ _ _ _ _ _ _ _ Hid).
      unfold rowid_order. simpl. apply StronglySorted_app; split_and!.
      * intros a b Ha Hb. apply list_elem_of_singleton in Hb as ->. simpl.
        destruct (new_rowid_above _ _ Hid) as [_ Hmax].
        pose proof (max_rowid_bound (attendance db)) as Hall.
        rewrite Forall_forall in Hall. specialize (Hall a Ha). simpl in Hall. lia.
      * exact Hsorted.
      * repeat constructor.
    + by rewrite (attend_add_rejected _ _ _ _ _ _ _ Hid).
  - unfold interactionCreate, handle. simpl.
    destruct (Sql.select_by_id_and_user db i (user.id u)) as [rec|] eqn:Hsel;
      [|done].
    unfold Sql.select_by_id_and_user in Hsel.
    apply head_Some_elem_of, list_elem_of_filter in Hsel as [[Hi Hu] Hin].
    apply list_elem_of_lookup in Hin as [k Hk].
    unfold rowid_order, Sql.update_file. simpl.
    rewrite (update_at _ _ _ _ k rec Hsorted Hk Hi).
    by eapply rowid_order_insert.
  - unfold interactionCreate, handle. simpl.
    by destruct (Sql.select_recent_by_user db (user.id u) _).
Qed.

Lemma rowid_order_run evs : forall db,
  rowid_order db -> rowid_order (snd (run db evs)).
Proof.
  induction evs as [|[now i] evs IH]; intros db Hsorted; [done|].
  rewrite run_cons. simpl. by apply IH, rowid_order_step.
Qed.

(** C6: after two updates of the caller's row, one after the other, the
    database is the one the second update alone leaves, and the row read
    back carries the second attachment. *)
Theorem attend_updatefile_twice now1 now2 db u i proof1 proof2 k rec :
  rowid_order db ->
  attendance db !! k = Some rec -> id rec = i -> userId rec = user.id u ->
  let db1 := snd (interactionCreate now1 db
                    {| user := u; options := attend_updatefile i proof1 |}) in
  let db2 := snd (interactionCreate now2 db1
                    {| user := u; options := attend_updatefile i proof2 |}) in
  db2 = snd (interactionCreate now2 db
               {| user := u; options := attend_updatefile i proof2 |})
  /\ Sql.select_by_id_and_user db2 i (user.id u)
     = Some {| id := id rec; userId := userId rec; userName := userName rec;
               subject := subject rec; status := status rec;
               reason := reason rec;
               fileUrl := Some (attachment.url proof2);
               fileName := Some (attachment.name proof2);
               createdAt := createdAt rec |}.
Proof.
  intros Hsorted Hk Hid Hu db1 db2.
  assert (Hlt : (k < length (attendance db))%nat) by by eapply lookup_lt_Some.
  assert (Hdb1 : db1 = {| attendance :=
                  <[k := Sql.set_file (attachment.url proof1)
                           (attachment.name proof1) rec]> (attendance db);
                sqlite_sequence := sqlite_sequence db |}).
  { unfold db1. by rewrite (attend_updatefile_found _ _ _ _ _ k rec). }
  assert (Hsorted1 : rowid_order db1) by by apply rowid_order_step.
  assert (Hk1 : attendance db1 !! k
                = Some (Sql.set_file (attachment.url proof1)
                          (attachment.name proof1) rec)).
  { rewrite Hdb1. simpl. by apply list_lookup_insert_eq. }
  assert (Hdb2 : db2 = {| attendance :=
                  <[k := Sql.set_file (attachment.url proof2)
                           (attachment.name proof2) rec]> (attendance db);
                sqlite_sequence := sqlite_sequence db |}).
  { unfold db2.
    rewrite (attend_updatefile_found _ _ _ _ _ k _ Hsorted1 Hk1 Hid Hu).
    simpl. rewrite Hdb1. simpl. by rewrite list_insert_insert_eq. }
  split.
  - rewrite Hdb2. by rewrite (attend_updatefile_found _ _ _ _ _ k rec).
  - assert (Hsorted2 : rowid_order db2) by by apply rowid_order_step.
    rewrite <- Hid, <- Hu.
    apply (select_found db2 k (Sql.set_file (attachment.url proof2)
                                 (attachment.name proof2) rec) Hsorted2).
    rewrite Hdb2. simpl. by apply list_lookup_insert_eq.
Qed.

Lemma attend_updatefile_twice_witness :
  let u := user.mk "1" "a#1" in
  let db1 := snd (interactionCreate 8000 two_records
                    {| user := u;
                       options := attend_updatefile 2 (attachment.mk "u" "f.pdf") |}) in
  let db2 := snd (interactionCreate 9000 db1
                    {| user := u;
                       options := attend_updatefile 2 (attachment.mk "u2" "f2.pdf") |}) in
  db2 = snd (interactionCreate 9000 two_records
               {| user := u;
                  options := attend_updatefile 2 (attachment.mk "u2" "f2.pdf") |})
  /\ Sql.select_by_id_and_user db2 2 "1"
     = Some {| id := 2; userId := "1"; userName := "a#1";
               subject := "Art"; status := "present"; reason := None;
               fileUrl := Some "u2"; fileName := Some "f2.pdf";
               createdAt := 5000 |}.
Proof.
  apply (attend_updatefile_twice 8000 9000 two_records (user.mk "1" "a#1") 2
           (attachment.mk "u" "f.pdf") (attachment.mk "u2" "f2.pdf") 1
           {| id := 2; userId := "1"; userName := "a#1"; subject := "Art";
              status := "present"; reason := None; fileUrl := None;
              fileName := None; createdAt := 5000 |});
    [exact two_records_rowid_order | reflexivity | reflexivity | reflexivity].
Defined.

(** ** [attend_list] *)

Lemma attend_list_rows now db u limit :
  listed (fst (interactionCreate now db
                 {| user := u; options := attend_list limit |}))
  = Sql.select_recent_by_user db (user.id u) (effective_limit limit).
Proof.
  unfold interactionCreate, handle. simpl.
  by destruct (Sql.select_recent_by_user db (user.id u) _).
Qed.

Section order_by.

Lemma null_lt_trans a b c :
  Sql.null_lt a b = true -> Sql.null_lt b c = true -> Sql.null_lt a c = true.
Proof.
  destruct a as [x|], b as [y|], c as [z|]; simpl; try done.
  rewrite !Z.ltb_lt. lia.
Qed.

Lemma null_lt_total a b :
  Sql.null_lt a b = false -> Sql.null_lt b a = true \/ a = b.
Proof.
  destruct a as [x|], b as [y|]; simpl; try done; [|by left|by right].
  rewrite Z.ltb_ge, Z.ltb_lt. intros Hle.
  destruct (Z.eq_dec x y) as [->|Hne]; [by right|left; lia].
Qed.

Lemma sorter_insert_perm r idx : Sql.sorter_insert r idx ≡ₚ r :: idx.
Proof.
  induction idx as [|x idx IH]; simpl; [done|].
  destruct (Sql.null_lt _ _); [done|].
  rewrite IH. apply Permutation_swap.
Qed.

Lemma sorter_fold_perm rs : forall idx,
  fold_left (fun idx r => Sql.sorter_insert r idx) rs idx ≡ₚ (idx ++ rs)%list.
Proof.
  induction rs as [|r rs IH]; intros idx; simpl.
  - by rewrite app_nil_r.
  - rewrite IH, sorter_insert_perm. simpl. apply Permutation_middle.
Qed.

Lemma order_by_perm rs : Sql.order_by_datetime_desc rs ≡ₚ rs.
Proof. unfold Sql.order_by_datetime_desc. by rewrite sorter_fold_perm. Qed.

(** A row that is newer in the scan than all of the index lands in its
    place. *)
Lemma sorter_insert_sorted r idx :
  StronglySorted recent_first idx ->
  Forall (fun x => id x < id r) idx ->
  StronglySorted recent_first (Sql.sorter_insert r idx).
Proof.
  induction idx as [|x idx IH]; intros Hsorted Hids; simpl.
  - repeat constructor.
  - apply StronglySorted_cons in Hsorted as [Hx Hidx].
    apply Forall_cons in Hids as [Hxr Hids].
    destruct (Sql.null_lt (Sql.datetime (createdAt x))
                          (Sql.datetime (createdAt r))) eqn:Hlt.
    + apply StronglySorted_cons. split.
      * constructor; [by left|].
        eapply Forall_impl; [exact Hx|]. simpl.
        intros y [Hy|[Hy _]]; left.
        -- by eapply null_lt_trans.
        -- by rewrite <- Hy.
      * by apply StronglySorted_cons.
    + apply StronglySorted_cons. split; [|by apply IH].
      rewrite sorter_insert_perm. constructor; [|done].
      unfold recent_first.
      destruct (null_lt_total _ _ Hlt) as [?|Heq]; [by left|by right].
Qed.

Lemma sorter_fold_sorted rs : forall idx,
  StronglySorted recent_first idx ->
  StronglySorted (fun a b => id a < id b) rs ->
  Forall (fun x => Forall (fun r => id x < id r) rs) idx ->
  StronglySorted recent_first
    (fold_left (fun idx r => Sql.sorter_insert r idx) rs idx).
Proof.
  induction rs as [|r rs IH]; intros idx Hidx Hrs Hbelow; simpl; [done|].
  apply StronglySorted_cons in Hrs as [Hr Hrs].
  apply IH; [|done|].
  - apply sorter_insert_sorted; [done|].
    eapply Forall_impl; [exact Hbelow|]. simpl.
    intros x Hx. by apply Forall_cons in Hx as [? _].
  - rewrite sorter_insert_perm. constructor; [done|].
    eapply Forall_impl; [exact Hbelow|]. simpl.
    intros x Hx. by apply Forall_cons in Hx as [_ ?].
Qed.

Lemma order_by_sorted rs :
  StronglySorted (fun a b => id a < id b) rs ->
  StronglySorted recent_first (Sql.order_by_datetime_desc rs).
Proof.
  intros Hrs. apply sorter_fold_sorted; [constructor|done|constructor].
Qed.

Lemma filter_rowid_sorted (P : row -> Prop) `{forall r, Decision (P r)} rs :
  StronglySorted (fun a b => id a < id b) rs ->
  StronglySorted (fun a b => id a < id b) (filter P rs).
Proof.
  induction 1 as [|r rs _ IH Hr]; [constructor|].
  rewrite filter_cons. destruct (decide (P r)); [|done].
  constructor; [done|].
  rewrite Forall_forall in Hr |- *. intros x Hx.
  apply list_elem_of_filter in Hx as [_ Hx]. by apply Hr.
Qed.

Lemma limit_rows_sorted n rs :
  StronglySorted recent_first rs ->
  StronglySorted recent_first (Sql.limit_rows n rs).
Proof.
  intros Hrs. unfold Sql.limit_rows. destruct (n <? 0); [done|].
  rewrite <- (take_drop (Z.to_nat n) rs) in Hrs.
  by apply StronglySorted_app_1_l in Hrs.
Qed.

End order_by.

Lemma select_recent_own db uid limit :
  Forall (fun r => userId r = uid) (Sql.select_recent_by_user db uid limit).
Proof.
  unfold Sql.select_recent_by_user, Sql.limit_rows.
  assert (Hall : Forall (fun r => userId r = uid)
            (Sql.order_by_datetime_desc
               (filter (fun r => userId r = uid) (attendance db)))).
  { rewrite order_by_perm. apply Forall_forall. intros r Hr.
    by apply list_elem_of_filter in Hr as [? _]. }
  destruct (limit <? 0); [done|]. by apply Forall_take.
Qed.

Lemma select_recent_length db uid limit :
  0 <= limit ->
  length (Sql.select_recent_by_user db uid limit)
  = Nat.min (Z.to_nat limit)
            (length (filter (fun r => userId r = uid) (attendance db))).
Proof.
  intros Hlimit. unfold Sql.select_recent_by_user, Sql.limit_rows.
  destruct (Z.ltb_spec limit 0); [lia|].
  by rewrite length_take, order_by_perm.
Qed.

(** C7: whatever commands have run on the database, the rows [attend_list]
    shows a caller are all rows of that caller. *)
Theorem attend_list_only_own evs now u limit :
  Forall (fun r => userId r = user.id u)
    (listed (fst (interactionCreate now (snd (run new_database evs))
                    {| user := u; options := attend_list limit |}))).
Proof. rewrite attend_list_rows. apply select_recent_own. Qed.

(** C8, at an input where the code departs from it: of two records added
    within one second the older is listed first, so the listing is not in
    descending order of [createdAt], and asked for the last one record the
    listing shows the older of the two. *)
Theorem same_second_oldest_first :
  let rows := listed (fst (interactionCreate 1700000009000 same_second
                             {| user := user.mk "1" "a#1";
                                options := attend_list None |})) in
  createdAt <$> rows = [1700000000100; 1700000000900]
  /\ ~ StronglySorted (fun a b => createdAt b <= createdAt a) rows
  /\ createdAt <$> listed (fst (interactionCreate 1700000009000 same_second
                                  {| user := user.mk "1" "a#1";
                                     options := attend_list (Some 1) |}))
     = [1700000000100].
Proof.
  split; [vm_compute; reflexivity|]. split; [|vm_compute; reflexivity].
  intros Hsorted. vm_compute listed in Hsorted.
  apply StronglySorted_cons in Hsorted as [Hfirst _].
  apply Forall_cons in Hfirst as [Hle _]. simpl in Hle. lia.
Qed.

(** X19: what the listing is, on a table in rowid order: as many rows as
    the limit allows and the caller has, all of the caller, in descending
    order of [datetime(createdAt)], that is of [createdAt] taken to the
    whole second, rows without a [datetime] last, and rows that this leaves
    tied in the order of their insertion. *)
Theorem attend_list_recent_first now db u limit :
  rowid_order db ->
  let rows := listed (fst (interactionCreate now db
                             {| user := u; options := attend_list limit |})) in
  length rows
  = Nat.min (Z.to_nat (effective_limit limit))
            (length (filter (fun r => userId r = user.id u) (attendance db)))
  /\ Forall (fun r => userId r = user.id u) rows
  /\ StronglySorted recent_first rows.
Proof.
  intros Hsorted rows. unfold rows. rewrite attend_list_rows.
  pose proof (effective_limit_range limit) as Hrange.
  split_and!.
  - apply select_recent_length. lia.
  - apply select_recent_own.
  - by apply limit_rows_sorted, order_by_sorted, filter_rowid_sorted.
Qed.

Lemma same_second_rowid_order : rowid_order same_second.
Proof. unfold rowid_order. vm_compute attendance. repeat constructor. Defined.

Lemma attend_list_recent_first_witness :
  let rows := listed (fst (interactionCreate 1700000009000 same_second
                             {| user := user.mk "1" "a#1";
                                options := attend_list None |})) in
  length rows
  = Nat.min (Z.to_nat (effective_limit None))
            (length (filter (fun r => userId r = "1") (attendance same_second)))
  /\ Forall (fun r => userId r = "1") rows
  /\ StronglySorted recent_first rows.
Proof.
  apply (attend_list_recent_first 1700000009000 same_second
           (user.mk "1" "a#1") None).
  exact same_second_rowid_order.
Defined.

(** * Further properties of the handlers *)

(** ** What holds of every row, after any history *)

(** A property of rows that the inserted row has and that setting the file
    columns keeps holds of the whole table after every command. *)
Lemma interactionCreate_rows (Q : row -> Prop) :
  (forall lastID u now subject status reasonOpt proof,
     Q {| id := lastID; userId := user.id u; userName := user.tag u;
          subject := subject; status := status;
          reason := stored_reason status reasonOpt;
          fileUrl := attachment.url <$> proof;
          fileName := attachment.name <$> proof;
          createdAt := now |}) ->
  (forall url name r, Q r -> Q (Sql.set_file url name r)) ->
  forall now db i,
    Forall Q (attendance db) ->
    Forall Q (attendance (snd (interactionCreate now db i))).
Proof.
  intros Hnew Hset now db i Hall.
  destruct i as [u [subject status reasonOpt proof | i proof | limit]].
  - destruct (Sql.new_rowid db) as [lastID|] eqn:Hid.
    + rewrite (attend_add_stores _ _ _ _ _ _ _ _ Hid). simpl.
      apply Forall_app. split; [done|]. constructor; [apply Hnew|constructor].
    + by rewrite (attend_add_rejected _ _ _ _ _ _ _ Hid).
  - unfold interactionCreate, handle. simpl.
    destruct (Sql.select_by_id_and_user db i (user.id u)) as [rec|]; [|done].
    simpl. apply Forall_fmap. eapply Forall_impl; [exact Hall|].
    intros r Hr. simpl. unfold Sql.update_row.
    destruct (decide (id r = i)); [by apply Hset|done].
  - unfold interactionCreate, handle. simpl.
    by destruct (Sql.select_recent_by_user db (user.id u) _).
Qed.

Lemma run_invariant (P : database -> Prop) :
  (forall now db i, P db -> P (snd (interactionCreate now db i))) ->
  forall evs db, P db -> P (snd (run db evs)).
Proof.
  intros Hstep evs. induction evs as [|[now i] evs IH]; intros db Hdb; [done|].
  rewrite run_cons. simpl. by apply IH, Hstep.
Qed.

Lemma run_rows (Q : row -> Prop) :
  (forall lastID u now subject status reasonOpt proof,
     Q {| id := lastID; userId := user.id u; userName := user.tag u;
          subject := subject; status := status;
          reason := stored_reason status reasonOpt;
          fileUrl := attachment.url <$> proof;
          fileName := attachment.name <$> proof;
          createdAt := now |}) ->
  (forall url name r, Q r -> Q (Sql.set_file url name r)) ->
  forall evs, Forall Q (attendance (snd (run new_database evs))).
Proof.
  intros Hnew Hset evs.
  apply (run_invariant (fun db => Forall Q (attendance db))).
  - intros now db i. by apply interactionCreate_rows.
  - constructor.
Qed.

Lemma stored_reason_not_empty status reasonOpt :
  stored_reason status reasonOpt <> Some "".
Proof.
  unfold stored_reason, JS.or, JS.truthy.
  destruct reasonOpt as [s|].
  - destruct (String.eqb_spec s ""); simpl.
    + by destruct (String.eqb status "absent").
    + congruence.
  - by destruct (String.eqb status "absent").
Qed.

Lemma stored_reason_absent reasonOpt :
  is_Some (stored_reason "absent" reasonOpt).
Proof.
  unfold stored_reason, JS.or, JS.truthy.
  destruct reasonOpt as [s|]; [|by eexists].
  destruct (String.eqb s ""); by eexists.
Qed.

(** X1: after any history on a fresh database no row has the empty string
    as its reason, and every row whose status is "absent" has a reason. *)
Theorem reason_never_empty evs :
  Forall (fun r => reason r <> Some ""
                   /\ (status r = "absent" -> is_Some (reason r)))
         (attendance (snd (run new_database evs))).
Proof.
  apply run_rows.
  - intros lastID u now subject status reasonOpt proof. simpl. split.
    + apply stored_reason_not_empty.
    + intros ->. apply stored_reason_absent.
  - intros url name r Hr. exact Hr.
Qed.

(** X2: after any history on a fresh database a row has a file URL exactly
    when it has a file name. *)
Theorem file_columns_together evs :
  Forall (fun r => is_Some (fileUrl r) <-> is_Some (fileName r))
         (attendance (snd (run new_database evs))).
Proof.
  apply run_rows.
  - intros lastID u now subject status reasonOpt proof. simpl.
    destruct proof; simpl; split; intros [x Hx]; by try eexists.
  - intros url name r _. simpl. split; by eexists.
Qed.

(** ** What no command does to the rows there are *)

Lemma fixed_columns_step now db i :
  fixed_columns <$> attendance db
  `prefix_of` fixed_columns <$> attendance (snd (interactionCreate now db i)).
Proof.
  destruct i as [u [subject status reasonOpt proof | i proof | limit]].
  - destruct (Sql.new_rowid db) as [lastID|] eqn:Hid.
    + rewrite (attend_add_stores _ _ _ _ _ _ _ _ Hid). simpl.
      rewrite fmap_app. by apply prefix_app_r.
    + by rewrite (attend_add_rejected _ _ _ _ _ _ _ Hid).
  - unfold interactionCreate, handle. simpl.
    destruct (Sql.select_by_id_and_user db i (user.id u)) as [rec|]; [|done].
    simpl. rewrite <- list_fmap_compose.
    erewrite list_fmap_ext; [done|]. intros k r _. simpl.
    unfold Sql.update_row. by destruct (decide (id r = i)).
  - unfold interactionCreate, handle. simpl.
    by destruct (Sql.select_recent_by_user db (user.id u) _).
Qed.

(** X3: over any history from any database, the rows there were stay where
    they were in the table, none is deleted, and their id, owner, subject,
    status, reason and creation time are not changed. *)
Theorem rows_kept_and_fixed evs : forall db,
  fixed_columns <$> attendance db
  `prefix_of` fixed_columns <$> attendance (snd (run db evs)).
Proof.
  induction evs as [|[now i] evs IH]; intros db; [done|].
  rewrite run_cons. simpl.
  etrans; [apply fixed_columns_step|apply IH].
Qed.

(** ** The ids of a table that started empty *)

Lemma ids_dense_step now db i :
  let n db := Z.of_nat (length (attendance db)) in
  id <$> attendance db = seqZ 1 (n db) /\ sqlite_sequence db = n db ->
  let db' := snd (interactionCreate now db i) in
  id <$> attendance db' = seqZ 1 (n db') /\ sqlite_sequence db' = n db'.
Proof.
  intros n [Hids Hseq] db'. unfold db'. clear db'. unfold n in *. clear n.
  destruct i as [u [subject status reasonOpt proof | i proof | limit]].
  - destruct (Sql.new_rowid db) as [lastID|] eqn:Hid.
    + rewrite (attend_add_stores _ _ _ _ _ _ _ _ Hid). simpl.
      assert (Hmax : Sql.max_rowid (attendance db)
                     <= Z.of_nat (length (attendance db))).
      { apply max_rowid_le; [lia|].
        apply Forall_forall. intros r Hr.
        assert (Hin : id r ∈ seqZ 1 (Z.of_nat (length (attendance db))))
          by (rewrite <- Hids; by apply list_elem_of_fmap_2).
        apply elem_of_seqZ in Hin. lia. }
      assert (HlastID : lastID = Z.of_nat (length (attendance db)) + 1).
      { unfold Sql.new_rowid in Hid.
        destruct (Sql.MAX_ROWID <=? _); [done|].
        injection Hid as <-. lia. }
      rewrite length_app, fmap_app, Hids. simpl.
      replace (length (attendance db) + 1)%nat
        with (S (length (attendance db))) by lia.
      rewrite seqZ_S.
      split; [f_equal; f_equal; lia|lia].
    + by rewrite (attend_add_rejected _ _ _ _ _ _ _ Hid).
  - unfold interactionCreate, handle. simpl.
    destruct (Sql.select_by_id_and_user db i (user.id u)) as [rec|]; [|done].
    simpl. rewrite length_fmap, <- list_fmap_compose.
    split; [|done]. rewrite <- Hids. apply list_fmap_ext.
    intros k r _. simpl. unfold Sql.update_row.
    by destruct (decide (id r = i)).
  - unfold interactionCreate, handle. simpl.
    by destruct (Sql.select_recent_by_user db (user.id u) _).
Qed.

(** X4: after any history on a fresh database the ids in the table are
    1, 2, ..., n in this order, n the number of rows, and the counter of
    [AUTOINCREMENT] stands at n. *)
Theorem ids_dense evs :
  let db := snd (run new_database evs) in
  id <$> attendance db = seqZ 1 (Z.of_nat (length (attendance db)))
  /\ sqlite_sequence db = Z.of_nat (length (attendance db)).
Proof.
  apply (run_invariant
           (fun db => id <$> attendance db
                      = seqZ 1 (Z.of_nat (length (attendance db)))
                      /\ sqlite_sequence db = Z.of_nat (length (attendance db)))).
  - intros now db i. apply ids_dense_step.
  - done.
Qed.

(** ** One user's commands and another user's rows *)

Lemma rowid_lookup_lt (l : list row) : forall j k a b,
  StronglySorted (fun a b => id a < id b) l ->
  l !! j = Some a -> l !! k = Some b -> (j < k)%nat -> id a < id b.
Proof.
  induction l as [|x l IH]; intros j k a b Hsorted Hj Hk Hlt; [done|].
  apply StronglySorted_cons in Hsorted as [Hx Hl].
  destruct k as [|k]; [lia|]. simpl in Hk.
  destruct j as [|j]; simpl in Hj.
  - injection Hj as ->. rewrite Forall_forall in Hx.
    apply Hx. by eapply list_elem_of_lookup_2.
  - eapply (IH j k); eauto. lia.
Qed.

Lemma rowid_unique (l : list row) j k a b :
  StronglySorted (fun a b => id a < id b) l ->
  l !! j = Some a -> l !! k = Some b -> id a = id b -> j = k.
Proof.
  intros Hsorted Hj Hk Hid.
  destruct (Nat.lt_trichotomy j k) as [Hlt|[->|Hlt]]; [|done|].
  - pose proof (rowid_lookup_lt l j k a b Hsorted Hj Hk Hlt). lia.
  - pose proof (rowid_lookup_lt l k j b a Hsorted Hk Hj Hlt). lia.
Qed.

Lemma select_Some db i uid rec :
  Sql.select_by_id_and_user db i uid = Some rec ->
  exists k, attendance db !! k = Some rec /\ id rec = i /\ userId rec = uid.
Proof.
  unfold Sql.select_by_id_and_user. intros Hsel.
  apply head_Some_elem_of, list_elem_of_filter in Hsel as [[Hi Hu] Hin].
  apply list_elem_of_lookup in Hin as [k Hk]. by exists k.
Qed.

(** X5: on a table in rowid order, no command of one user changes, moves or
    removes a row of another user. *)
Theorem others_rows_untouched now db i k r :
  rowid_order db ->
  attendance db !! k = Some r ->
  userId r <> user.id (user i) ->
  attendance (snd (interactionCreate now db i)) !! k = Some r.
Proof.
  intros Hsorted Hk Hother.
  destruct i as [u [subject status reasonOpt proof | i proof | limit]];
    simpl in Hother.
  - destruct (Sql.new_rowid db) as [lastID|] eqn:Hid.
    + rewrite (attend_add_stores _ _ _ _ _ _ _ _ Hid). simpl.
      rewrite lookup_app_l; [done|]. by eapply lookup_lt_Some.
    + by rewrite (attend_add_rejected _ _ _ _ _ _ _ Hid).
  - destruct (Sql.select_by_id_and_user db i (user.id u)) as [rec|] eqn:Hsel.
    + apply select_Some in Hsel as (k' & Hk' & Hi & Hu).
      rewrite (attend_updatefile_found _ _ _ _ _ k' rec Hsorted Hk' Hi Hu).
      simpl. rewrite list_lookup_insert_ne; [done|].
      intros ->. congruence.
    + unfold interactionCreate, handle. simpl. by rewrite Hsel.
  - unfold interactionCreate, handle. simpl.
    by destruct (Sql.select_recent_by_user db (user.id u) _).
Qed.

Lemma two_owners_rows :
  attendance two_owners
  = [ {| id := 1; userId := "1"; userName := "a#1"; subject := "Math";
         status := "absent"; reason := Some "Not provided";
         fileUrl := None; fileName := None; createdAt := 1000 |};
      {| id := 2; userId := "2"; userName := "b#2"; subject := "Art";
         status := "present"; reason := None; fileUrl := Some "u";
         fileName := Some "f.pdf"; createdAt := 5000 |} ].
Proof. reflexivity. Defined.

Lemma two_owners_rowid_order : rowid_order two_owners.
Proof. unfold rowid_order. vm_compute attendance. repeat constructor. Defined.

Lemma others_rows_untouched_witness :
  attendance (snd (interactionCreate 9000 two_owners
                     {| user := user.mk "1" "a#1";
                        options := attend_updatefile 1
                                     (attachment.mk "v" "g.png") |}))
    !! 1%nat
  = Some {| id := 2; userId := "2"; userName := "b#2"; subject := "Art";
            status := "present"; reason := None; fileUrl := Some "u";
            fileName := Some "f.pdf"; createdAt := 5000 |}.
Proof.
  apply others_rows_untouched;
    [exact two_owners_rowid_order | reflexivity | simpl; discriminate].
Defined.

(** ** From [attend_add] to the other two commands *)

Lemma max_rowid_nonneg (l : list row) : 0 <= Sql.max_rowid l.
Proof. induction l; simpl; lia. Qed.

Lemma updated_embed_built i rec proof :
  EmbedBuilder.value_ok (subject rec) = true ->
  status rec = "present" \/ status rec = "absent" ->
  EmbedBuilder.value_ok (attachment.name proof) = true ->
  updated_embed i rec proof
  = Some (ProofUpdated i (subject rec) (JS.toUpperCase (status rec))
                       (attachment.name proof)).
Proof.
  intros Hsubject Hstatus Hname. unfold updated_embed.
  rewrite Hsubject, Hname. by destruct Hstatus as [-> | ->].
Qed.

(** X6: the id [attend_add] announces names the new record for
    [attend_updatefile]: the user who added it gets the update, with the
    class and status of the record, and every other user is told that
    nothing was found.  (For a class and a file name of 1 to 1024
    characters, one of the two values of the status, and an id up to
    2^53.) *)
Theorem added_record_updatable
    now now' db u v subject status reasonOpt proof proof' lastID :
  rowid_order db ->
  Sql.new_rowid db = Some lastID ->
  lastID <= 2 ^ 53 ->
  status = "present" \/ status = "absent" ->
  EmbedBuilder.value_ok subject = true ->
  EmbedBuilder.value_ok (attachment.name proof') = true ->
  let db' := snd (interactionCreate now db
                    {| user := u;
                       options := attend_add subject status reasonOpt proof |}) in
  fst (interactionCreate now' db'
         {| user := v;
            options := attend_updatefile (JS.number lastID) proof' |})
  = if decide (user.id v = user.id u)
    then ProofUpdated lastID subject (JS.toUpperCase status)
                      (attachment.name proof')
    else Content no_attendance_found.
Proof.
  intros Hsorted Hid Hbound Hstatus Hsubject Hname db'.
  assert (Hsorted' : rowid_order db') by by apply rowid_order_step.
  destruct (new_rowid_above _ _ Hid) as [_ Hmax].
  pose proof (max_rowid_nonneg (attendance db)) as Hnonneg.
  rewrite number_exact by lia.
  unfold db' in *. clear db'.
  rewrite (attend_add_stores _ _ _ _ _ _ _ _ Hid) in *.
  cbn [snd] in *.
  set (r := {| id := lastID; userId := user.id u |}) in *.
  set (db' := {| attendance := (attendance db ++ [r])%list |}) in *.
  assert (Hk : attendance db' !! length (attendance db) = Some r).
  { simpl. by rewrite list_lookup_middle. }
  destruct (decide (user.id v = user.id u)) as [Hv|Hv].
  - rewrite (attend_updatefile_found _ _ _ _ _ _ r Hsorted' Hk) by done.
    by rewrite (updated_embed_built lastID r proof').
  - unfold interactionCreate, handle. cbn [options user].
    rewrite select_not_found; [done|]. simpl.
    apply Forall_app. split.
    + eapply Forall_impl; [apply max_rowid_bound|]. simpl. intros; lia.
    + repeat constructor. simpl. congruence.
Qed.

Lemma added_record_updatable_witness :
  let db' := snd (interactionCreate 7000 two_owners
                    {| user := user.mk "1" "a#1";
                       options := attend_add "Bio" "present" None None |}) in
  fst (interactionCreate 9000 db'
         {| user := user.mk "1" "a#1";
            options := attend_updatefile (JS.number 3)
                         (attachment.mk "v" "g.png") |})
  = if decide ("1" = "1")
    then ProofUpdated 3 "Bio" (JS.toUpperCase "present") "g.png"
    else Content no_attendance_found.
Proof.
  apply (added_record_updatable 7000 9000 two_owners (user.mk "1" "a#1")
           (user.mk "1" "a#1") "Bio" "present" None None
           (attachment.mk "v" "g.png") 3);
    [exact two_owners_rowid_order | reflexivity | lia | by left
    | reflexivity | reflexivity].
Defined.

Lemma sorter_insert_newest r idx :
  Forall (fun x => Sql.null_lt (Sql.datetime (createdAt x))
                               (Sql.datetime (createdAt r)) = true) idx ->
  Sql.sorter_insert r idx = r :: idx.
Proof. destruct 1 as [|x idx Hx _]; simpl; [done|]. by rewrite Hx. Qed.

(** X7: a record added in a later second than all the records its user has
    is the first of that user's listing, whatever the limit asked for.
    Later is meant in the order of [datetime]: the time of the new record
    has a four-digit year, and the records there are have an earlier second
    or a time without one. *)
Theorem added_record_listed_first
    now now' db u subject status reasonOpt proof lastID limit :
  Sql.new_rowid db = Some lastID ->
  Forall (fun r => userId r = user.id u ->
                   Sql.null_lt (Sql.datetime (createdAt r))
                               (Sql.datetime now) = true)
         (attendance db) ->
  let db' := snd (interactionCreate now db
                    {| user := u;
                       options := attend_add subject status reasonOpt proof |}) in
  head (listed (fst (interactionCreate now' db'
                       {| user := u; options := attend_list limit |})))
  = Some {| id := lastID; userId := user.id u; userName := user.tag u;
            subject := subject; status := status;
            reason := stored_reason status reasonOpt;
            fileUrl := attachment.url <$> proof;
            fileName := attachment.name <$> proof;
            createdAt := now |}.
Proof.
  intros Hid Holder db'. unfold db'. clear db'.
  rewrite attend_list_rows, (attend_add_stores _ _ _ _ _ _ _ _ Hid). simpl.
  unfold Sql.select_recent_by_user, Sql.order_by_datetime_desc. simpl.
  rewrite filter_app, filter_cons_True, filter_nil by done.
  rewrite fold_left_app. simpl.
  rewrite sorter_insert_newest.
  - pose proof (effective_limit_range limit) as Hrange.
    unfold Sql.limit_rows.
    destruct (Z.ltb_spec (effective_limit limit) 0); [lia|].
    destruct (Z.to_nat (effective_limit limit)) eqn:Hn; [lia|done].
  - fold (Sql.order_by_datetime_desc
            (filter (fun r => userId r = user.id u) (attendance db))).
    rewrite order_by_perm. apply Forall_forall. intros x Hx.
    apply list_elem_of_filter in Hx as [Hu Hx]. simpl.
    rewrite Forall_forall in Holder. by apply Holder.
Qed.

Lemma added_record_listed_first_witness :
  let db' := snd (interactionCreate 7000 two_owners
                    {| user := user.mk "1" "a#1";
                       options := attend_add "Bio" "present" None None |}) in
  head (listed (fst (interactionCreate 9000 db'
                       {| user := user.mk "1" "a#1";
                          options := attend_list (Some 1) |})))
  = Some {| id := 3; userId := "1"; userName := "a#1";
            subject := "Bio"; status := "present";
            reason := stored_reason "present" None;
            fileUrl := None; fileName := None; createdAt := 7000 |}.
Proof.
  intros db'.
  apply (added_record_listed_first 7000 9000 two_owners (user.mk "1" "a#1")
           "Bio" "present" None None 3 (Some 1)); [reflexivity|].
  rewrite two_owners_rows.
  repeat (apply Forall_cons_2; [intros _; vm_compute; reflexivity|]).
  apply Forall_nil_2.
Defined.

(** ** What [attend_list] shows *)

Lemma select_recent_stored db uid limit :
  Sql.select_recent_by_user db uid limit
  ⊆+ filter (fun r => userId r = uid) (attendance db).
Proof.
  unfold Sql.select_recent_by_user, Sql.limit_rows.
  destruct (limit <? 0).
  - by rewrite order_by_perm.
  - etrans; [apply submseteq_take|]. by rewrite order_by_perm.
Qed.

(** X8: the reply to [attend_list] is the "no records" message exactly when
    the caller has no row, and otherwise a listing of at least one and at
    most twenty rows. *)
Theorem attend_list_reply now db u limit :
  match fst (interactionCreate now db
               {| user := u; options := attend_list limit |}) with
  | Content c =>
      c = no_records_yet
      /\ filter (fun r => userId r = user.id u) (attendance db) = []
  | YourLast rows =>
      (1 <= length rows <= 20)%nat
      /\ filter (fun r => userId r = user.id u) (attendance db) <> []
  | _ => False
  end.
Proof.
  pose proof (select_recent_length db (user.id u) (effective_limit limit))
    as Hlen.
  pose proof (effective_limit_range limit) as Hrange.
  unfold interactionCreate, handle. simpl.
  destruct (Sql.select_recent_by_user db (user.id u) (effective_limit limit))
    as [|r rows] eqn:Hrows; simpl in *.
  - split; [done|]. apply length_zero_iff_nil. lia.
  - split; [lia|]. intros Hnil. rewrite Hnil in Hlen. simpl in Hlen. lia.
Qed.

(** X9: on a table in rowid order the listing shows stored rows of the
    table only, and no record twice. *)
Theorem attend_list_stored_once now db u limit :
  rowid_order db ->
  let rows := listed (fst (interactionCreate now db
                             {| user := u; options := attend_list limit |})) in
  rows ⊆+ attendance db /\ NoDup (id <$> rows).
Proof.
  intros Hsorted rows. unfold rows. rewrite attend_list_rows.
  assert (Hsub : Sql.select_recent_by_user db (user.id u) (effective_limit limit)
                 ⊆+ attendance db).
  { etrans; [apply select_recent_stored|].
    apply sublist_submseteq, sublist_filter. }
  split; [done|].
  assert (Hnodup : NoDup (id <$> attendance db)).
  { apply NoDup_alt. intros j k x Hj Hk.
    rewrite list_lookup_fmap in Hj, Hk.
    apply fmap_Some in Hj as (a & Hj & ->), Hk as (b & Hk & Hid).
    by apply (rowid_unique (attendance db) j k a b). }
  apply (fmap_submseteq id) in Hsub.
  apply submseteq_Permutation in Hsub as [k Hk].
  rewrite Hk in Hnodup. by apply NoDup_app in Hnodup as [? _].
Qed.

Lemma attend_list_stored_once_witness :
  let rows := listed (fst (interactionCreate 9000 two_owners
                             {| user := user.mk "2" "b#2";
                                options := attend_list None |})) in
  rows ⊆+ attendance two_owners /\ NoDup (id <$> rows).
Proof.
  apply (attend_list_stored_once 9000 two_owners (user.mk "2" "b#2") None).
  exact two_owners_rowid_order.
Defined.

(** X10: on a table in rowid order the rows listed are the caller's most
    recent ones: a row of the caller that is left out comes after every
    listed row in the order of the listing. *)
Theorem attend_list_most_recent now db u limit a b :
  rowid_order db ->
  let rows := listed (fst (interactionCreate now db
                             {| user := u; options := attend_list limit |})) in
  a ∈ rows ->
  b ∈ attendance db -> userId b = user.id u -> b ∉ rows ->
  recent_first a b.
Proof.
  intros Hsorted rows. unfold rows. clear rows. rewrite attend_list_rows.
  unfold Sql.select_recent_by_user, Sql.limit_rows.
  pose proof (effective_limit_range limit) as Hrange.
  destruct (Z.ltb_spec (effective_limit limit) 0); [lia|].
  set (owned := filter (fun r => userId r = user.id u) (attendance db)).
  set (n := Z.to_nat (effective_limit limit)).
  intros Ha Hb Hu Hout.
  assert (Hall : StronglySorted recent_first
                   (take n (Sql.order_by_datetime_desc owned)
                    ++ drop n (Sql.order_by_datetime_desc owned))%list).
  { rewrite take_drop. by apply order_by_sorted, filter_rowid_sorted. }
  eapply StronglySorted_app_1_elem_of; [exact Hall|exact Ha|].
  assert (Hin : b ∈ Sql.order_by_datetime_desc owned).
  { rewrite order_by_perm. by apply list_elem_of_filter. }
  rewrite <- (take_drop n) in Hin. apply elem_of_app in Hin as [?|?]; done.
Qed.

Lemma attend_list_most_recent_witness :
  recent_first
    {| id := 2; userId := "1"; userName := "a#1"; subject := "Art";
       status := "present"; reason := None; fileUrl := None;
       fileName := None; createdAt := 5000 |}
    {| id := 1; userId := "1"; userName := "a#1"; subject := "Math";
       status := "present"; reason := None; fileUrl := None;
       fileName := None; createdAt := 1000 |}.
Proof.
  apply (attend_list_most_recent 9000 two_records (user.mk "1" "a#1")
           (Some 1)).
  - exact two_records_rowid_order.
  - vm_compute. apply list_elem_of_here.
  - vm_compute. apply list_elem_of_here.
  - reflexivity.
  - vm_compute listed. intros Hin.
    apply list_elem_of_singleton in Hin. discriminate Hin.
Defined.



(** ** The listener on any interaction *)

Lemma command_names :
  SlashCommand.name <$> commands
  = ["attend_add"; "attend_updatefile"; "attend_list"].
Proof. reflexivity. Qed.

(** X12: the listener replies exactly to the chat-input invocations of the
    commands that are registered, and where it does not reply it leaves the
    database as it is. *)
Theorem reply_iff_registered now db i :
  (is_Some (fst (Raw.interactionCreate now db i))
   <-> Raw.isChatInputCommand i = true
       /\ Raw.commandName i ∈ SlashCommand.name <$> commands)
  /\ match fst (Raw.interactionCreate now db i) with
     | None => snd (Raw.interactionCreate now db i) = db
     | Some _ => True
     end.
Proof.
  rewrite command_names.
  unfold Raw.interactionCreate, Raw.handle.
  destruct (Raw.isChatInputCommand i); simpl.
  2: { split; [|done]. split; [by intros [? ?]|by intros [? _]]. }
  destruct (String.eqb_spec (Raw.commandName i) "attend_add") as [->|Hadd].
  { assert (Hin : "attend_add" ∈ ["attend_add"; "attend_updatefile"; "attend_list"])
      by apply list_elem_of_here.
    destruct (Raw.getString (Raw.options i) "class") as [subject|];
      [|by split; [split; [|eexists]|]].
    destruct (Raw.getString (Raw.options i) "status") as [status|];
      [|by split; [split; [|eexists]|]].
    destruct (Sql.insert _ _ _ _ _ _ _ _ _) as [[lastID db']|];
      [destruct (saved_embed _ _ _ _ _ _)|];
      by split; [split; [|eexists]|]. }
  destruct (String.eqb_spec (Raw.commandName i) "attend_updatefile") as [->|Hupd].
  { assert (Hin : "attend_updatefile"
                  ∈ ["attend_add"; "attend_updatefile"; "attend_list"])
      by (apply list_elem_of_further, list_elem_of_here).
    destruct (Raw.getInteger (Raw.options i) "id") as [id0|];
      [|by split; [split; [|eexists]|]].
    destruct (Sql.select_by_id_and_user db id0 _) as [rec|];
      [|by split; [split; [|eexists]|]].
    destruct (Raw.getAttachment (Raw.options i) "proof") as [proof|];
      [destruct (updated_embed _ _ _)|];
      by split; [split; [|eexists]|]. }
  destruct (String.eqb_spec (Raw.commandName i) "attend_list") as [->|Hlist].
  { assert (Hin : "attend_list"
                  ∈ ["attend_add"; "attend_updatefile"; "attend_list"])
      by (do 2 apply list_elem_of_further; apply list_elem_of_here).
    destruct (Sql.select_recent_by_user db _ _);
      by split; [split; [|eexists]|]. }
  simpl. split; [|done]. split; [by intros [? ?]|].
  intros [_ Hin]. rewrite !elem_of_cons in Hin.
  destruct Hin as [?|[?|[?|Hin]]]; [done..|]. by apply elem_of_nil in Hin.
Qed.

(** The listener and the handler of the commands agree where the
    interaction carries what its command needs; elsewhere the listener
    leaves the database as it is. *)
Lemma raw_simulation now db i :
  match typed i with
  | Some t =>
      Raw.interactionCreate now db i
      = (Some (fst (interactionCreate now db t)),
         snd (interactionCreate now db t))
  | None => snd (Raw.interactionCreate now db i) = db
  end.
Proof.
  unfold typed, Raw.interactionCreate, Raw.handle.
  destruct (Raw.isChatInputCommand i); simpl; [|done].
  destruct (String.eqb (Raw.commandName i) "attend_add").
  { destruct (Raw.getString (Raw.options i) "class") as [subject|]; [|done].
    destruct (Raw.getString (Raw.options i) "status") as [status|]; [|done].
    unfold interactionCreate, handle. simpl.
    fold (stored_reason status (Raw.getString (Raw.options i) "reason")).
    destruct (Sql.insert _ _ _ _ _ _ _ _ _) as [[lastID db']|]; [|done].
    by destruct (saved_embed _ _ _ _ _ _). }
  destruct (String.eqb (Raw.commandName i) "attend_updatefile").
  { destruct (Raw.getInteger (Raw.options i) "id") as [id0|]; [|done].
    destruct (Raw.getAttachment (Raw.options i) "proof") as [proof|].
    - unfold interactionCreate, handle. simpl.
      destruct (Sql.select_by_id_and_user db id0 _) as [rec|]; [|done].
      by destruct (updated_embed _ _ _).
    - by destruct (Sql.select_by_id_and_user db id0 _). }
  destruct (String.eqb (Raw.commandName i) "attend_list"); [|done].
  unfold interactionCreate, handle. simpl.
  by destruct (Sql.select_recent_by_user db _ _).
Qed.

(** What passing the platform's checks gives the listener. *)
Lemma conforms_inv i :
  Raw.conforms i = true ->
  Raw.isChatInputCommand i = true
  /\ ((Raw.commandName i = "attend_add"
       /\ exists subject status,
            Raw.getString (Raw.options i) "class" = Some subject
            /\ Raw.getString (Raw.options i) "status" = Some status
            /\ (status = "present" \/ status = "absent"))
      \/ (Raw.commandName i = "attend_updatefile"
          /\ exists id0 proof,
               Raw.getInteger (Raw.options i) "id" = Some id0
               /\ Raw.getAttachment (Raw.options i) "proof" = Some proof)
      \/ Raw.commandName i = "attend_list").
Proof.
  unfold Raw.conforms, commands, Raw.option_ok. cbn -[String.eqb].
  destruct (Raw.isChatInputCommand i); [|done]. cbn -[String.eqb].
  destruct (String.eqb_spec "attend_add" (Raw.commandName i)) as [<-|_].
  { cbn -[String.eqb].
    destruct (Raw.getString (Raw.options i) "class") as [subject|] eqn:Hc;
      [|done].
    destruct (Raw.getString (Raw.options i) "status") as [status|] eqn:Hs;
      [|done].
    cbn -[String.eqb].
    destruct (String.eqb_spec "present" status) as [Hp|_].
    { intros _. split; [done|]. left. split; [done|].
      exists subject, status. auto. }
    destruct (String.eqb_spec "absent" status) as [Ha|_]; [|done].
    intros _. split; [done|]. left. split; [done|].
    exists subject, status. auto. }
  destruct (String.eqb_spec "attend_updatefile" (Raw.commandName i))
    as [<-|_].
  { cbn -[String.eqb].
    destruct (Raw.getInteger (Raw.options i) "id") as [id0|] eqn:Hid; [|done].
    destruct (Raw.getAttachment (Raw.options i) "proof") as [proof|] eqn:Hp;
      [|done].
    intros _. split; [done|]. right. left. eauto 10. }
  destruct (String.eqb_spec "attend_list" (Raw.commandName i))
    as [<-|_]; [|done].
  intros _. split; [done|]. by do 2 right.
Qed.

(** X13: an invocation that passes the platform's checks against the
    registered declarations carries what its handler reads, and gets
    exactly the reply and the effect of its command. *)
Theorem conforming_is_handled now db i :
  Raw.conforms i = true ->
  exists t,
    typed i = Some t
    /\ Raw.interactionCreate now db i
       = (Some (fst (interactionCreate now db t)),
          snd (interactionCreate now db t)).
Proof.
  intros Hok. pose proof (raw_simulation now db i) as Hsim.
  destruct (typed i) as [t|] eqn:Ht; [by exists t|].
  exfalso. revert Ht.
  apply conforms_inv in Hok as
    [Hchat [(Hname & subject & status & Hc & Hs & _)
           |[(Hname & id0 & proof & Hid & Hp)|Hname]]];
    unfold typed; rewrite Hchat, Hname; simpl.
  - by rewrite Hc, Hs.
  - by rewrite Hid, Hp.
  - done.
Qed.

Lemma conforming_is_handled_witness :
  exists t,
    typed (invocation "attend_add" (user.mk "1" "a#1")
             [("class", "Math"); ("status", "absent")] [] [])
    = Some t
    /\ Raw.interactionCreate 1000 new_database
         (invocation "attend_add" (user.mk "1" "a#1")
            [("class", "Math"); ("status", "absent")] [] [])
       = (Some (fst (interactionCreate 1000 new_database t)),
          snd (interactionCreate 1000 new_database t)).
Proof. apply conforming_is_handled. reflexivity. Defined.

(** X14: an [attend_add] that lacks its class or its status stores nothing
    and is answered with the general failure message: the insert is
    rejected by the NOT NULL columns. *)
Theorem attend_add_without_required now db i :
  Raw.isChatInputCommand i = true ->
  Raw.commandName i = "attend_add" ->
  Raw.getString (Raw.options i) "class" = None
  \/ Raw.getString (Raw.options i) "status" = None ->
  Raw.interactionCreate now db i = (Some (Content something_went_wrong), db).
Proof.
  intros Hchat Hname Hmissing.
  unfold Raw.interactionCreate, Raw.handle. rewrite Hchat, Hname. simpl.
  destruct Hmissing as [-> | ->]; [done|].
  by destruct (Raw.getString (Raw.options i) "class").
Qed.

Lemma attend_add_without_required_witness :
  Raw.interactionCreate 9000 two_owners
    (invocation "attend_add" (user.mk "1" "a#1") [("class", "Math")] [] [])
  = (Some (Content something_went_wrong), two_owners).
Proof.
  apply attend_add_without_required; [reflexivity | reflexivity |].
  right. reflexivity.
Defined.

(** X15: an [attend_updatefile] that lacks its id or its attachment changes
    nothing.  It is answered "not found", except that without the
    attachment, for an id of a record of the caller, it is answered with the
    general failure message. *)
Theorem attend_updatefile_without_required now db i :
  Raw.isChatInputCommand i = true ->
  Raw.commandName i = "attend_updatefile" ->
  Raw.getInteger (Raw.options i) "id" = None
  \/ Raw.getAttachment (Raw.options i) "proof" = None ->
  Raw.interactionCreate now db i
  = (Some (Content
       match Raw.getInteger (Raw.options i) "id" with
       | Some id0 =>
           match Sql.select_by_id_and_user db id0 (user.id (Raw.user i)) with
           | Some _ => something_went_wrong
           | None => no_attendance_found
           end
       | None => no_attendance_found
       end), db).
Proof.
  intros Hchat Hname Hmissing.
  unfold Raw.interactionCreate, Raw.handle. rewrite Hchat, Hname. simpl.
  destruct (Raw.getInteger (Raw.options i) "id") as [id0|]; [|done].
  destruct Hmissing as [|Hproof]; [done|]. rewrite Hproof.
  by destruct (Sql.select_by_id_and_user db id0 _).
Qed.

Lemma attend_updatefile_without_required_witness :
  Raw.interactionCreate 9000 two_owners
    (invocation "attend_updatefile" (user.mk "1" "a#1") [] [("id", 1)] [])
  = (Some (Content something_went_wrong), two_owners).
Proof.
  apply (attend_updatefile_without_required 9000 two_owners
           (invocation "attend_updatefile" (user.mk "1" "a#1")
              [] [("id", 1)] []));
    [reflexivity | reflexivity |].
  right. reflexivity.
Defined.

Lemma raw_run_cons db now i evs :
  Raw.run db ((now, i) :: evs)
  = (fst (Raw.interactionCreate now db i)
       :: fst (Raw.run (snd (Raw.interactionCreate now db i)) evs),
     snd (Raw.run (snd (Raw.interactionCreate now db i)) evs)).
Proof.
  cbn -[Raw.interactionCreate].
  destruct (Raw.interactionCreate now db i) as [r db'].
  cbn -[Raw.interactionCreate].
  by destruct (Raw.run db' evs).
Qed.

Lemma status_step now db t :
  match options t with
  | attend_add _ status _ _ => status = "present" \/ status = "absent"
  | _ => True
  end ->
  Forall (fun r => status r = "present" \/ status r = "absent")
         (attendance db) ->
  Forall (fun r => status r = "present" \/ status r = "absent")
         (attendance (snd (interactionCreate now db t))).
Proof.
  intros Hstatus Hall.
  destruct t as [u [subject status reasonOpt proof | i proof | limit]];
    simpl in Hstatus.
  - destruct (Sql.new_rowid db) as [lastID|] eqn:Hid.
    + rewrite (attend_add_stores _ _ _ _ _ _ _ _ Hid). simpl.
      apply Forall_app. split; [done|]. constructor; [exact Hstatus|constructor].
    + by rewrite (attend_add_rejected _ _ _ _ _ _ _ Hid).
  - unfold interactionCreate, handle. simpl.
    destruct (Sql.select_by_id_and_user db i (user.id u)) as [rec|]; [|done].
    simpl. apply Forall_fmap. eapply Forall_impl; [exact Hall|].
    intros r Hr. simpl. unfold Sql.update_row.
    by destruct (decide (id r = i)).
  - unfold interactionCreate, handle. simpl.
    by destruct (Sql.select_recent_by_user db (user.id u) _).
Qed.

Lemma raw_status_step now db i :
  Raw.conforms i = true ->
  Forall (fun r => status r = "present" \/ status r = "absent")
         (attendance db) ->
  Forall (fun r => status r = "present" \/ status r = "absent")
         (attendance (snd (Raw.interactionCreate now db i))).
Proof.
  intros Hok Hall. pose proof (raw_simulation now db i) as Hsim.
  apply conforms_inv in Hok as
    [Hchat [(Hname & subject & status & Hc & Hs & Hchoice)
           |[(Hname & id0 & proof & Hid & Hp)|Hname]]];
    unfold typed in Hsim; rewrite Hchat, Hname in Hsim; simpl in Hsim.
  - rewrite Hc, Hs in Hsim. rewrite Hsim. simpl. by apply status_step.
  - rewrite Hid, Hp in Hsim. rewrite Hsim. simpl. by apply status_step.
  - rewrite Hsim. simpl. by apply status_step.
Qed.

(** X16: over any history of invocations that pass the platform's checks
    against the registered declarations, every stored status is "present"
    or "absent". *)
Theorem stored_status_is_choice evs :
  Forall (fun e => Raw.conforms e.2 = true) evs ->
  Forall (fun r => status r = "present" \/ status r = "absent")
         (attendance (snd (Raw.run new_database evs))).
Proof.
  assert (Hgen : forall db,
            Forall (fun e => Raw.conforms e.2 = true) evs ->
            Forall (fun r => status r = "present" \/ status r = "absent")
                   (attendance db) ->
            Forall (fun r => status r = "present" \/ status r = "absent")
                   (attendance (snd (Raw.run db evs)))).
  { induction evs as [|[now i] evs IH]; intros db Hevs Hdb; [done|].
    apply Forall_cons in Hevs as [Hi Hevs]. simpl in Hi.
    rewrite raw_run_cons. simpl. apply IH; [done|].
    by apply raw_status_step. }
  intros Hevs. apply Hgen; [done|constructor].
Qed.

Lemma stored_status_is_choice_witness :
  Forall (fun r => status r = "present" \/ status r = "absent")
         (attendance (snd (Raw.run new_database
            [(1000, invocation "attend_add" (user.mk "1" "a#1")
                      [("class", "Math"); ("status", "absent")] [] []);
             (5000, invocation "attend_list" (user.mk "1" "a#1")
                      [] [("limit", 3)] [])]))).
Proof. apply stored_status_is_choice. repeat constructor. Defined.

(** ** Start-up *)

(** X17: the process goes on past the start-up guard exactly when both
    environment variables are set to non-empty text; the fixed application
    id never stops it. *)
Theorem config_missing_iff TOKEN GUILD_ID :
  config_missing TOKEN GUILD_ID = false
  <-> (exists t, TOKEN = Some t /\ t <> "")
      /\ (exists g, GUILD_ID = Some g /\ g <> "").
Proof.
  unfold config_missing, JS.truthy. simpl.
  destruct TOKEN as [t|], GUILD_ID as [g|]; simpl.
  - destruct (String.eqb_spec t ""), (String.eqb_spec g ""); simpl;
      (split; [try done; intros _; split; eauto
              | intros [(t' & [= <-] & ?) (g' & [= <-] & ?)]; done]).
  - destruct (String.eqb t ""); simpl;
      (split; [done|intros [_ (g' & ? & _)]; done]).
  - split; [done|intros [(t' & ? & _) _]; done].
  - split; [done|intros [(t' & ? & _) _]; done].
Qed.

(** ** The limit, in closed form *)

(** X18: the limit the query runs with is always between 1 and 20; it is 5
    for a limit that is omitted or zero, and any other limit brought into
    the range from 1 to 20. *)
Theorem effective_limit_closed_form opt :
  1 <= effective_limit opt <= 20
  /\ effective_limit opt
     = match opt with
       | None => 5
       | Some n => if n =? 0 then 5 else Z.max 1 (Z.min 20 n)
       end.
Proof.
  split; [apply effective_limit_range|].
  destruct opt as [n|]; [|reflexivity].
  destruct (Z.eqb_spec n 0) as [->|Hn]; [reflexivity|].
  by apply effective_limit_nonzero.
Qed.
